(** * APDS9960 ALS / RGB colour sensor driver (als.c)

    A shallow embedding of the driver's register policy, its IIO callbacks
    and its interrupt handler, with the properties of the register/event/
    integration-time logic stated and proved over it.

    The driver is written against three kernel services that are not part
    of the repository: the regmap register cache, the I2C transport under
    it, and the IIO core.  They are modelled here as far as the driver's
    observable behaviour depends on them:
    - the I2C transport is a byte-addressed register file with a log of the
      transactions issued and a schedule of transport faults;
    - regmap is the read / write / update-bits core with its cache and the
      volatile / precious / readable tables of the driver's configuration;
    - the IIO core is an event queue, and its clock and its channel-info
      lookup are inputs of the callbacks that use them. *)

From Stdlib Require Import ZArith Lia Bool List Sorted.
From stdpp Require Import base option list gmap fin_maps.

Local Open Scope Z_scope.

(** ** C integer types *)

Module CInt.

(** Conversion to a signed [w]-bit integer (two's complement, as the
    kernel is built with wrapping signed arithmetic). *)
Definition wrap_signed (w x : Z) : Z :=
  (x + 2 ^ (w - 1)) mod 2 ^ w - 2 ^ (w - 1).

Definition wrap_unsigned (w x : Z) : Z := x mod 2 ^ w.

Definition to_int : Z -> Z := wrap_signed 32.
Definition to_s64 : Z -> Z := wrap_signed 64.
Definition to_uint : Z -> Z := wrap_unsigned 32.
Definition to_u64 : Z -> Z := wrap_unsigned 64.
Definition to_u8 : Z -> Z := wrap_unsigned 8.

(** [~x] on an [unsigned int]. *)
Definition uint_not (x : Z) : Z := 2 ^ 32 - 1 - x.

Lemma wrap_signed_id w x :
  0 < w -> - 2 ^ (w - 1) <= x < 2 ^ (w - 1) -> wrap_signed w x = x.
Proof.
  intros Hw Hx. unfold wrap_signed.
  assert (E : 2 ^ w = 2 * 2 ^ (w - 1)).
  { replace w with (Z.succ (w - 1)) at 1 by lia. apply Z.pow_succ_r. lia. }
  rewrite Z.mod_small; lia.
Qed.

Lemma to_int_id x : - 2147483648 <= x < 2147483648 -> to_int x = x.
Proof. intros H. apply wrap_signed_id; [lia | exact H]. Qed.

Lemma to_s64_id x :
  - 9223372036854775808 <= x < 9223372036854775808 -> to_s64 x = x.
Proof. intros H. apply wrap_signed_id; [lia | exact H]. Qed.

Lemma to_u8_id x : 0 <= x <= 255 -> to_u8 x = x.
Proof. intros H. unfold to_u8, wrap_unsigned. apply Z.mod_small. lia. Qed.

Lemma to_u8_range x : 0 <= to_u8 x <= 255.
Proof.
  unfold to_u8, wrap_unsigned.
  pose proof (Z.mod_pos_bound x (2 ^ 8) ltac:(lia)). lia.
Qed.

Lemma to_uint_id x : 0 <= x < 4294967296 -> to_uint x = x.
Proof. intros H. unfold to_uint, wrap_unsigned. apply Z.mod_small. lia. Qed.

Lemma to_u64_id x : 0 <= x < 18446744073709551616 -> to_u64 x = x.
Proof. intros H. unfold to_u64, wrap_unsigned. apply Z.mod_small. lia. Qed.

End CInt.

(** ** errno values and IIO return codes (kernel headers) *)

Definition EIO : Z := 5.
Definition EINVAL : Z := 22.
Definition IIO_VAL_FRACTIONAL_LOG2 : Z := 11.

Inductive irqreturn_t := IRQ_NONE | IRQ_HANDLED | IRQ_WAKE_THREAD.

(** [enum iio_chan_info_enum]: the [mask] argument of read_raw/write_raw. *)
Inductive iio_chan_info_enum :=
| IIO_CHAN_INFO_RAW
| IIO_CHAN_INFO_PROCESSED
| IIO_CHAN_INFO_SCALE
| IIO_CHAN_INFO_OFFSET
| IIO_CHAN_INFO_CALIBSCALE
| IIO_CHAN_INFO_CALIBBIAS
| IIO_CHAN_INFO_SAMP_FREQ
| IIO_CHAN_INFO_HARDWAREGAIN
| IIO_CHAN_INFO_INT_TIME.

(** [enum iio_modifier]: the [channel2] field of a modified channel. *)
Inductive iio_modifier :=
| IIO_NO_MOD
| IIO_MOD_X
| IIO_MOD_Y
| IIO_MOD_Z
| IIO_MOD_LIGHT_BOTH
| IIO_MOD_LIGHT_IR
| IIO_MOD_LIGHT_CLEAR
| IIO_MOD_LIGHT_RED
| IIO_MOD_LIGHT_GREEN
| IIO_MOD_LIGHT_BLUE
| IIO_MOD_LIGHT_UV.

Inductive iio_chan_type := IIO_VOLTAGE | IIO_LIGHT | IIO_INTENSITY | IIO_PROXIMITY.

(** ** Register map of the chip *)

Definition APDS9960_REG_ALS_BASE : Z := 0x94.

Inductive apds9960_als_channel_idx :=
| IDX_ALS_CLEAR | IDX_ALS_RED | IDX_ALS_GREEN | IDX_ALS_BLUE.

Definition idx_value (c : apds9960_als_channel_idx) : Z :=
  match c with
  | IDX_ALS_CLEAR => 0
  | IDX_ALS_RED => 1
  | IDX_ALS_GREEN => 2
  | IDX_ALS_BLUE => 3
  end.

Definition APDS9960_REG_ALS_CHANNEL (colour : apds9960_als_channel_idx) : Z :=
  APDS9960_REG_ALS_BASE + idx_value colour * 2.

Definition APDS9960_REG_ATIME : Z := 0x81.

Definition APDS9960_MAX_ALS_THRES_VAL : Z := 0xffff.
Definition APDS9960_MAX_INT_TIME_IN_US : Z := 1000000.

(** ** The I2C transport *)

Inductive bus_op :=
| BusRead (reg : Z)
| BusWrite (reg val : Z).

(** The chip behind the bus: its register file, the transactions issued so
    far (oldest first) and the outcome of the transactions to come (0 for a
    transfer that succeeds, a negative errno otherwise; none left: success). *)
Record i2c_bus := mk_bus {
  chip : gmap Z Z;
  bus_log : list bus_op;
  faults : list Z;
}.

Definition chip_byte (b : i2c_bus) (reg : Z) : Z :=
  CInt.to_u8 (default 0 (chip b !! reg)).

Definition bus_read (b : i2c_bus) (reg : Z) : Z * Z * i2c_bus :=
  let b' := mk_bus (chip b) (bus_log b ++ [BusRead reg]) (tail (faults b)) in
  match faults b with
  | e :: _ => if e =? 0 then (0, chip_byte b reg, b') else (e, 0, b')
  | [] => (0, chip_byte b reg, b')
  end.

Definition bus_write (b : i2c_bus) (reg val : Z) : Z * i2c_bus :=
  let sent := mk_bus (<[reg := CInt.to_u8 val]> (chip b))
                     (bus_log b ++ [BusWrite reg (CInt.to_u8 val)])
                     (tail (faults b)) in
  let lost := mk_bus (chip b)
                       (bus_log b ++ [BusWrite reg (CInt.to_u8 val)])
                       (tail (faults b)) in
  match faults b with
  | e :: _ => if e =? 0 then (0, sent) else (e, lost)
  | [] => (0, sent)
  end.

(** ** regmap *)

Record regmap_range := regmap_reg_range { range_min : Z; range_max : Z }.

Record regmap_access_table := {
  yes_ranges : list regmap_range;
  no_ranges : list regmap_range;
}.

Record reg_default := mk_reg_default { def_reg : Z; def_val : Z }.

Inductive regcache_type := REGCACHE_NONE | REGCACHE_RBTREE | REGCACHE_FLAT.

Record regmap_config := {
  reg_bits : Z;
  val_bits : Z;
  use_single_read : bool;
  use_single_write : bool;
  volatile_table : option regmap_access_table;
  precious_table : option regmap_access_table;
  rd_table : option regmap_access_table;
  reg_defaults : list reg_default;
  max_register : Z;
  cache_type : regcache_type;
}.

Module Regmap.

Record t := mk {
  config : regmap_config;
  cache : gmap Z Z;
  bus : i2c_bus;
}.

Definition with_bus (map : t) (b : i2c_bus) : t :=
  mk (config map) (cache map) b.

Definition regmap_reg_in_range (reg : Z) (r : regmap_range) : bool :=
  (range_min r <=? reg) && (reg <=? range_max r).

Definition regmap_reg_in_ranges (reg : Z) (rs : list regmap_range) : bool :=
  existsb (regmap_reg_in_range reg) rs.

Definition regmap_check_range_table (reg : Z) (tb : regmap_access_table) : bool :=
  if regmap_reg_in_ranges reg (no_ranges tb) then false
  else match yes_ranges tb with
       | [] => true
       | _ => regmap_reg_in_ranges reg (yes_ranges tb)
       end.

Definition regmap_readable (cfg : regmap_config) (reg : Z) : bool :=
  if max_register cfg <? reg then false
  else match rd_table cfg with
       | Some tb => regmap_check_range_table reg tb
       | None => true
       end.

Definition regmap_writeable (cfg : regmap_config) (reg : Z) : bool :=
  negb (max_register cfg <? reg).

Definition regmap_volatile (cfg : regmap_config) (reg : Z) : bool :=
  if negb (regmap_readable cfg reg) then false
  else match volatile_table cfg with
       | Some tb => regmap_check_range_table reg tb
       | None => match cache_type cfg with
                 | REGCACHE_NONE => true
                 | _ => false
                 end
       end.

Definition regmap_precious (cfg : regmap_config) (reg : Z) : bool :=
  if negb (regmap_readable cfg reg) then false
  else match precious_table cfg with
       | Some tb => regmap_check_range_table reg tb
       | None => false
       end.

(** The cache is consulted and filled for non-volatile registers only. *)
Definition regcache_read (map : t) (reg : Z) : option Z :=
  match cache_type (config map) with
  | REGCACHE_NONE => None
  | _ => if regmap_volatile (config map) reg then None else cache map !! reg
  end.

Definition regcache_write (map : t) (reg val : Z) : t :=
  match cache_type (config map) with
  | REGCACHE_NONE => map
  | _ => if regmap_volatile (config map) reg then map
         else mk (config map) (<[reg := val]> (cache map)) (bus map)
  end.

(** [regmap_read(map, reg, &val)]: [val] is the content of the output
    location before the call; it is kept when the read fails. *)
Definition regmap_read (map : t) (reg : Z) (val : Z) : Z * Z * t :=
  match regcache_read map reg with
  | Some v => (0, v, map)
  | None =>
      if negb (regmap_readable (config map) reg) then (- EIO, val, map)
      else
        let '(ret, v, b) := bus_read (bus map) reg in
        if ret =? 0 then (0, v, regcache_write (with_bus map b) reg v)
        else (ret, val, with_bus map b)
  end.

(** [regmap_write(map, reg, val)]: the cache is updated before the
    transfer is attempted. *)
Definition regmap_write (map : t) (reg val : Z) : Z * t :=
  if negb (regmap_writeable (config map) reg) then (- EIO, map)
  else
    let map1 := regcache_write map reg val in
    let '(ret, b) := bus_write (bus map1) reg val in
    (ret, with_bus map1 b).

(** [regmap_update_bits(map, reg, mask, val)]: read, merge under the
    mask, and write back only when the register content changes. *)
Definition regmap_update_bits (map : t) (reg mask val : Z) : Z * t :=
  let '(ret, orig, map1) := regmap_read map reg 0 in
  if negb (ret =? 0) then (ret, map1)
  else
    let tmp := Z.lor (Z.land orig (CInt.uint_not mask)) (Z.land val mask) in
    if tmp =? orig then (0, map1) else regmap_write map1 reg tmp.

(** [regmap_init]: the cache starts from the register defaults. *)
Definition regmap_init (cfg : regmap_config) (b : i2c_bus) : t :=
  mk cfg
     (match cache_type cfg with
      | REGCACHE_NONE => ∅
      | _ => list_to_map (map (fun d => (def_reg d, def_val d)) (reg_defaults cfg))
      end)
     b.

End Regmap.

(** ** Register policy of the driver *)

Definition apds9960_readable_ranges : list regmap_range :=
  [ regmap_reg_range APDS9960_REG_ATIME (APDS9960_REG_ALS_BASE + 6) ].

Definition apds9960_readable_table : regmap_access_table :=
  {| yes_ranges := apds9960_readable_ranges; no_ranges := [] |}.

Definition apds9960_reg_defaults : list reg_default :=
  [ mk_reg_default APDS9960_REG_ATIME 0xff ].

Definition apds9960_volatile_ranges : list regmap_range :=
  [ regmap_reg_range APDS9960_REG_ALS_BASE (APDS9960_REG_ALS_BASE + 2) ].

Definition apds9960_volatile_table : regmap_access_table :=
  {| yes_ranges := apds9960_volatile_ranges; no_ranges := [] |}.

Definition apds9960_precious_ranges : list regmap_range :=
  [ regmap_reg_range (APDS9960_REG_ALS_BASE + 4) (APDS9960_REG_ALS_BASE + 6) ].

Definition apds9960_precious_table : regmap_access_table :=
  {| yes_ranges := apds9960_precious_ranges; no_ranges := [] |}.

Definition apds9960_regmap_config : regmap_config :=
  {| reg_bits := 8;
     val_bits := 8;
     use_single_read := true;
     use_single_write := true;
     volatile_table := Some apds9960_volatile_table;
     precious_table := Some apds9960_precious_table;
     rd_table := Some apds9960_readable_table;
     reg_defaults := apds9960_reg_defaults;
     max_register := APDS9960_REG_ALS_BASE + 6;
     cache_type := REGCACHE_RBTREE |}.

(** ** Device state *)

(** [struct apds9960_data], without the back pointers and the mutex. *)
Record apds9960_data := mk_data {
  regmap : Regmap.t;
  als_int : Z;
  als_gain : Z;
  als_adc_int_us : Z;
}.

Definition set_regmap (data : apds9960_data) (m : Regmap.t) : apds9960_data :=
  mk_data m (als_int data) (als_gain data) (als_adc_int_us data).

Definition set_als_int (data : apds9960_data) (v : Z) : apds9960_data :=
  mk_data (regmap data) v (als_gain data) (als_adc_int_us data).

Definition set_als_adc_int_us (data : apds9960_data) (v : Z) : apds9960_data :=
  mk_data (regmap data) (als_int data) (als_gain data) v.

(** An event queued by [iio_push_event]: its code and its timestamp. *)
Record iio_event := mk_event { ev_code : Z; ev_timestamp : Z }.

(** [struct iio_dev]: the driver's private data ([iio_priv]) and the events
    pushed to the IIO core, oldest first. *)
Record iio_dev := mk_dev {
  priv : apds9960_data;
  events : list iio_event;
}.

Definition set_priv (indio_dev : iio_dev) (data : apds9960_data) : iio_dev :=
  mk_dev data (events indio_dev).

Definition iio_push_event (indio_dev : iio_dev) (code : Z) (timestamp : Z) : iio_dev :=
  mk_dev (priv indio_dev)
         (events indio_dev ++ [mk_event (CInt.to_u64 code) (CInt.to_s64 timestamp)]).

(** ** Channels *)

Record iio_chan_spec := {
  type : iio_chan_type;
  info_mask_separate : list iio_chan_info_enum;
  info_mask_shared_by_type : list iio_chan_info_enum;
  channel2 : iio_modifier;
  address : Z;
  modified : Z;
  scan_index : Z;
}.

Definition als_chan (m : iio_modifier) (colour : apds9960_als_channel_idx) : iio_chan_spec :=
  {| type := IIO_INTENSITY;
     info_mask_separate := [IIO_CHAN_INFO_RAW];
     info_mask_shared_by_type := [IIO_CHAN_INFO_SCALE; IIO_CHAN_INFO_INT_TIME];
     channel2 := m;
     address := APDS9960_REG_ALS_CHANNEL colour;
     modified := 1;
     scan_index := -1 |}.

(** The zero-filled entry that ends the table. *)
Definition end_of_channels : iio_chan_spec :=
  {| type := IIO_VOLTAGE;
     info_mask_separate := [];
     info_mask_shared_by_type := [];
     channel2 := IIO_NO_MOD;
     address := 0;
     modified := 0;
     scan_index := 0 |}.

Definition apds9960_channels : list iio_chan_spec :=
  [ als_chan IIO_MOD_LIGHT_CLEAR IDX_ALS_CLEAR;
    als_chan IIO_MOD_LIGHT_RED IDX_ALS_RED;
    als_chan IIO_MOD_LIGHT_GREEN IDX_ALS_GREEN;
    als_chan IIO_MOD_LIGHT_BLUE IDX_ALS_BLUE;
    end_of_channels ].

(** ** IIO callbacks *)

(** The channel-info lookup the scale path delegates to belongs to the IIO
    core.  It receives the device and the two output locations, and hands
    back its return code, the content it leaves in the two locations and
    the device as it leaves it. *)
Definition ext_info_lookup : Type :=
  iio_dev -> iio_chan_spec -> iio_modifier -> Z -> Z -> Z * Z * Z * iio_dev.

(** [apds9960_read_raw]: the result is the return code, the content of
    [*val] and [*val2] after the call, and the device. *)
Definition apds9960_read_raw (iio_read_channel_ext_info : ext_info_lookup)
    (indio_dev : iio_dev) (chan : iio_chan_spec) (val val2 : Z)
    (mask : iio_chan_info_enum) : Z * Z * Z * iio_dev :=
  match mask with
  | IIO_CHAN_INFO_SCALE =>
      match channel2 chan with
      | IIO_MOD_LIGHT_CLEAR
      | IIO_MOD_LIGHT_RED
      | IIO_MOD_LIGHT_GREEN
      | IIO_MOD_LIGHT_BLUE =>
          let '(ret, v, v2, dev) :=
            iio_read_channel_ext_info indio_dev chan (channel2 chan) val val2 in
          if negb (ret =? 0) then (ret, v, v2, dev)
          else (IIO_VAL_FRACTIONAL_LOG2, 0, 10000, dev)
      | _ => (- EINVAL, val, val2, indio_dev)
      end
  | _ => (- EINVAL, val, val2, indio_dev)
  end.

(** [clamp(val, lo, hi)] is [min(max(val, lo), hi)]. *)
Definition clamp (val lo hi : Z) : Z := Z.min (Z.max val lo) hi.

(** The integration time in microseconds as [apds9960_write_raw] first
    computes it: a [long long] product and quotient. *)
Definition int_time_ll (val gain : Z) : Z :=
  Z.quot
    (CInt.to_s64 (CInt.to_s64 (1000000 * CInt.to_int (256 - val)) * gain))
    1000.

(** [apds9960_write_raw]: the return code and the private data after the
    call ([val2] is not used). *)
Definition apds9960_write_raw (data : apds9960_data) (chan : iio_chan_spec)
    (val val2 : Z) (mask : iio_chan_info_enum) : Z * apds9960_data :=
  match mask with
  | IIO_CHAN_INFO_INT_TIME =>
      let data := set_als_adc_int_us data
                    (CInt.to_int (int_time_ll val (als_gain data))) in
      let data :=
        if als_adc_int_us data <? 1000 then set_als_adc_int_us data 1000
        else if APDS9960_MAX_INT_TIME_IN_US <? als_adc_int_us data
             then set_als_adc_int_us data APDS9960_MAX_INT_TIME_IN_US
             else data in
      let data := set_als_adc_int_us data
                    (CInt.to_int (clamp (als_adc_int_us data) 1000
                                        APDS9960_MAX_INT_TIME_IN_US)) in
      let to_hw (reg : Z) :=
        let '(ret, m) :=
          Regmap.regmap_update_bits (regmap data) APDS9960_REG_ATIME 0xff
            (CInt.to_uint (CInt.to_int (255 - val))) in
        (ret, set_regmap data m) in
      match als_gain data with
      | 1 => to_hw 0
      | 4 => to_hw 1
      | 16 => to_hw 2
      | 64 => to_hw 3
      | _ => (- EINVAL, data)
      end
  | _ => (- EINVAL, data)
  end.

(** [apds9960_als_irq_handler]: [now] is what [iio_get_time_ns] returns at
    the time of the call. *)
Definition apds9960_als_irq_handler (irq : Z) (p : iio_dev) (now : Z)
  : irqreturn_t * iio_dev :=
  let indio_dev := p in
  let data := priv indio_dev in
  (IRQ_HANDLED, iio_push_event indio_dev (als_int data) now).

(** [apds9960_als_read_event_config]: the register is read into
    [data->als_int] (an [unsigned int] location for regmap); the return
    code of the read is the result. *)
Definition apds9960_als_read_event_config (data : apds9960_data)
  : Z * apds9960_data :=
  let '(ret, v, m) :=
    Regmap.regmap_read (regmap data) (APDS9960_REG_ALS_CHANNEL IDX_ALS_CLEAR)
                       (CInt.to_uint (als_int data)) in
  (ret, set_als_int (set_regmap data m) (CInt.to_int v)).

Definition apds9960_als_write_event_config (data : apds9960_data) (state : Z)
  : Z * apds9960_data :=
  let '(ret, m) :=
    Regmap.regmap_write (regmap data) (APDS9960_REG_ALS_CHANNEL IDX_ALS_CLEAR)
                        (CInt.to_uint state) in
  (ret, set_regmap data m).

(** The part of [apds9960_probe] that sets up the private data: the
    zero-filled allocation, the register map and the first ATIME write. *)
Definition apds9960_probe_data (b : i2c_bus) : Z * apds9960_data :=
  let data := mk_data (Regmap.regmap_init apds9960_regmap_config b) 0 0 0 in
  let '(ret, m) := Regmap.regmap_write (regmap data) APDS9960_REG_ATIME 0xff in
  (ret, set_regmap data m).

(** * Properties *)

(** ** Arithmetic of the integration time *)

Definition gain_supported (gain : Z) : Prop := In gain [1; 4; 16; 64].

(** The value [apds9960_write_raw] leaves in [als_adc_int_us]. *)
Definition int_time_stored (val gain : Z) : Z :=
  clamp (CInt.to_int (int_time_ll val gain)) 1000 APDS9960_MAX_INT_TIME_IN_US.

Lemma clamp_bounds x lo hi : lo <= hi -> lo <= clamp x lo hi <= hi.
Proof. unfold clamp. lia. Qed.

Lemma clamp_fixed x lo hi : lo <= x <= hi -> clamp x lo hi = x.
Proof. unfold clamp. lia. Qed.

Lemma int_time_stored_bounds val gain :
  1000 <= int_time_stored val gain <= 1000000.
Proof. apply clamp_bounds. unfold APDS9960_MAX_INT_TIME_IN_US. lia. Qed.

(** The two-branch test and the [clamp] that follows it amount to one
    clamp of the truncated value. *)
Lemma clamp_twice x :
  let y := if x <? 1000 then 1000
           else if APDS9960_MAX_INT_TIME_IN_US <? x
                then APDS9960_MAX_INT_TIME_IN_US else x in
  CInt.to_int (clamp y 1000 APDS9960_MAX_INT_TIME_IN_US)
  = clamp x 1000 APDS9960_MAX_INT_TIME_IN_US.
Proof.
  cbv zeta. unfold APDS9960_MAX_INT_TIME_IN_US.
  rewrite CInt.to_int_id.
  - unfold clamp. destruct (Z.ltb_spec x 1000); [lia |].
    destruct (Z.ltb_spec 1000000 x); lia.
  - pose proof (clamp_bounds
                  (if x <? 1000 then 1000
                   else if 1000000 <? x then 1000000 else x)
                  1000 1000000 ltac:(lia)).
    lia.
Qed.

(** On the documented domain nothing wraps: the quotient is the exact
    product in milliseconds-times-gain, at most 16 384 000. *)
Lemma int_time_ll_exact val gain :
  0 <= val <= 255 -> 0 <= gain <= 64 ->
  int_time_ll val gain = 1000 * (256 - val) * gain.
Proof.
  intros Hv Hg. unfold int_time_ll.
  rewrite (CInt.to_int_id (256 - val)) by lia.
  rewrite (CInt.to_s64_id (1000000 * (256 - val))) by lia.
  rewrite CInt.to_s64_id by nia.
  replace (1000000 * (256 - val) * gain) with (1000 * (256 - val) * gain * 1000)
    by ring.
  apply Z.quot_mul. lia.
Qed.

Lemma gain_supported_range gain : gain_supported gain -> 1 <= gain <= 64.
Proof. unfold gain_supported. simpl. lia. Qed.

Lemma int_time_no_truncation val gain :
  0 <= val <= 255 -> gain_supported gain ->
  CInt.to_int (int_time_ll val gain) = 1000 * (256 - val) * gain
  /\ 1000 <= 1000 * (256 - val) * gain <= 16384000.
Proof.
  intros Hv Hg. apply gain_supported_range in Hg.
  rewrite int_time_ll_exact by lia.
  assert (1000 <= 1000 * (256 - val) * gain <= 16384000) by nia.
  split; [apply CInt.to_int_id; lia | assumption].
Qed.

(** ** The write path, step by step *)

(** What [apds9960_write_raw] does for the integration-time mask: the
    clamped value is stored first, then the gain is examined, then the
    register is updated. *)
Lemma write_raw_int_time data chan val val2 :
  apds9960_write_raw data chan val val2 IIO_CHAN_INFO_INT_TIME
  = let data1 := set_als_adc_int_us data (int_time_stored val (als_gain data)) in
    let to_hw :=
      let '(ret, m) :=
        Regmap.regmap_update_bits (regmap data) APDS9960_REG_ATIME 0xff
          (CInt.to_uint (CInt.to_int (255 - val))) in
      (ret, set_regmap data1 m) in
    match als_gain data with
    | 1 | 4 | 16 | 64 => to_hw
    | _ => (- EINVAL, data1)
    end.
Proof.
  unfold apds9960_write_raw, int_time_stored.
  generalize (CInt.to_int (int_time_ll val (als_gain data))). intros x.
  rewrite <- (clamp_twice x). cbv zeta.
  destruct data as [m i g u].
  cbn [set_als_adc_int_us als_adc_int_us als_gain als_int regmap set_regmap].
  destruct (x <? 1000); [| destruct (APDS9960_MAX_INT_TIME_IN_US <? x)];
    cbn [set_als_adc_int_us als_adc_int_us als_gain als_int regmap set_regmap];
    generalize (Regmap.regmap_update_bits m APDS9960_REG_ATIME 255
                  (CInt.to_uint (CInt.to_int (255 - val))));
    intros upd; reflexivity.
Qed.

(** ** The transport and the register cache *)

Lemma bus_read_spec b reg ret v b' :
  bus_read b reg = (ret, v, b') ->
  chip b' = chip b
  /\ bus_log b' = bus_log b ++ [BusRead reg]
  /\ faults b' = tail (faults b)
  /\ (ret = 0 -> v = chip_byte b reg).
Proof.
  unfold bus_read. intros H.
  destruct (faults b) as [| e fs] eqn:Hf.
  - injection H as <- <- <-. simpl. auto.
  - destruct (Z.eqb_spec e 0) as [-> | Hne]; injection H as <- <- <-; simpl;
      repeat split; auto. intros ->. contradiction.
Qed.

Lemma bus_write_spec b reg val ret b' :
  bus_write b reg val = (ret, b') ->
  bus_log b' = bus_log b ++ [BusWrite reg (CInt.to_u8 val)]
  /\ faults b' = tail (faults b)
  /\ (ret = 0 -> chip b' = <[reg := CInt.to_u8 val]> (chip b))
  /\ (ret <> 0 -> chip b' = chip b).
Proof.
  unfold bus_write. intros H.
  destruct (faults b) as [| e fs] eqn:Hf.
  - injection H as <- <-. simpl. repeat split; auto. congruence.
  - destruct (Z.eqb_spec e 0) as [-> | Hne]; injection H as <- <-; simpl;
      repeat split; auto; congruence.
Qed.

(** A transfer succeeds when no fault is scheduled for it. *)
Definition next_transfer_ok (b : i2c_bus) : Prop :=
  head (faults b) = None \/ head (faults b) = Some 0.

Lemma bus_read_ok b reg :
  next_transfer_ok b ->
  bus_read b reg
  = (0, chip_byte b reg,
     mk_bus (chip b) (bus_log b ++ [BusRead reg]) (tail (faults b))).
Proof.
  unfold next_transfer_ok, bus_read.
  destruct (faults b) as [| e fs]; simpl; [reflexivity |].
  intros [H | H]; [discriminate | injection H as ->]. reflexivity.
Qed.

Lemma chip_byte_insert_eq b b' reg v :
  chip b' = <[reg := CInt.to_u8 v]> (chip b) -> chip_byte b' reg = CInt.to_u8 v.
Proof.
  intros E. unfold chip_byte. rewrite E, lookup_insert_eq. simpl.
  apply CInt.to_u8_id, CInt.to_u8_range.
Qed.

Lemma chip_byte_insert_ne b b' reg r v :
  chip b' = <[reg := v]> (chip b) -> reg <> r -> chip_byte b' r = chip_byte b r.
Proof.
  intros E Hne. unfold chip_byte. rewrite E, lookup_insert_ne by exact Hne.
  reflexivity.
Qed.

(** The register map is the one [apds9960_probe] creates. *)
Definition driver_regmap (map : Regmap.t) : Prop :=
  Regmap.config map = apds9960_regmap_config.

(** Every cached value is a byte and is the byte the chip holds. *)
Definition cache_coherent (map : Regmap.t) : Prop :=
  map_Forall (fun reg v => 0 <= v <= 255 /\ chip_byte (Regmap.bus map) reg = v)
             (Regmap.cache map).

(** [(orig & ~0xff) | (val & 0xff)] on bytes is [val]. *)
Lemma update_bits_byte orig v :
  0 <= orig <= 255 -> 0 <= v <= 255 ->
  Z.lor (Z.land orig (CInt.uint_not 0xff)) (Z.land v 0xff) = v.
Proof.
  intros Ho Hv.
  assert (E1 : Z.land orig (CInt.uint_not 0xff) = 0).
  { change (CInt.uint_not 0xff) with (Z.shiftl 0xffffff 8).
    apply Z.bits_inj'. intros n Hn.
    rewrite Z.land_spec, Z.bits_0.
    destruct (Z.lt_ge_cases n 8) as [Hlt | Hge].
    - rewrite Z.shiftl_spec_low by exact Hlt. apply andb_false_r.
    - rewrite (Z.bits_above_log2 orig n); [reflexivity | lia |].
      destruct (Z.eq_dec orig 0) as [-> | Hnz]; [simpl; lia |].
      apply Z.lt_le_trans with 8; [| exact Hge].
      apply Z.log2_lt_pow2; lia. }
  assert (E2 : Z.land v 0xff = v).
  { change 0xff with (Z.ones 8). rewrite Z.land_ones by lia.
    apply Z.mod_small. lia. }
  rewrite E1, E2. reflexivity.
Qed.

Lemma atime_policy :
  Regmap.regmap_volatile apds9960_regmap_config APDS9960_REG_ATIME = false
  /\ Regmap.regmap_readable apds9960_regmap_config APDS9960_REG_ATIME = true
  /\ Regmap.regmap_writeable apds9960_regmap_config APDS9960_REG_ATIME = true.
Proof. repeat split. Qed.

Lemma regmap_read_atime map val :
  driver_regmap map ->
  Regmap.regmap_read map APDS9960_REG_ATIME val
  = match Regmap.cache map !! APDS9960_REG_ATIME with
    | Some v => (0, v, map)
    | None =>
        let '(ret, v, b) := bus_read (Regmap.bus map) APDS9960_REG_ATIME in
        if ret =? 0
        then (0, v, Regmap.mk (Regmap.config map)
                      (<[APDS9960_REG_ATIME := v]> (Regmap.cache map)) b)
        else (ret, val, Regmap.with_bus map b)
    end.
Proof.
  intros Hcfg. destruct map as [cfg c b]. unfold driver_regmap in Hcfg.
  simpl in Hcfg. subst cfg.
  unfold Regmap.regmap_read, Regmap.regcache_read, Regmap.regcache_write,
    Regmap.with_bus.
  cbn [Regmap.config Regmap.cache Regmap.bus].
  destruct atime_policy as (-> & -> & _).
  cbn [cache_type apds9960_regmap_config negb].
  destruct (c !! APDS9960_REG_ATIME); [reflexivity |].
  destruct (bus_read b APDS9960_REG_ATIME) as [[ret v] b'].
  reflexivity.
Qed.

Lemma regmap_write_atime map val :
  driver_regmap map ->
  Regmap.regmap_write map APDS9960_REG_ATIME val
  = let '(ret, b) := bus_write (Regmap.bus map) APDS9960_REG_ATIME val in
    (ret, Regmap.mk (Regmap.config map)
            (<[APDS9960_REG_ATIME := val]> (Regmap.cache map)) b).
Proof.
  intros Hcfg. destruct map as [cfg c b]. unfold driver_regmap in Hcfg.
  simpl in Hcfg. subst cfg.
  unfold Regmap.regmap_write, Regmap.regcache_write, Regmap.with_bus.
  cbn [Regmap.config Regmap.cache Regmap.bus].
  destruct atime_policy as (-> & _ & ->).
  cbn [cache_type apds9960_regmap_config negb].
  reflexivity.
Qed.

(** What a successful update of ATIME leaves behind. *)
Definition atime_committed (map map' : Regmap.t) (v : Z) : Prop :=
  Regmap.cache map' !! APDS9960_REG_ATIME = Some v
  /\ chip_byte (Regmap.bus map') APDS9960_REG_ATIME = v
  /\ driver_regmap map'
  /\ cache_coherent map'
  /\ exists ops,
       bus_log (Regmap.bus map') = bus_log (Regmap.bus map) ++ ops
       /\ Forall (fun op => op = BusRead APDS9960_REG_ATIME
                            \/ op = BusWrite APDS9960_REG_ATIME v) ops.

Lemma cache_coherent_lookup map reg v :
  cache_coherent map -> Regmap.cache map !! reg = Some v ->
  0 <= v <= 255 /\ chip_byte (Regmap.bus map) reg = v.
Proof. intros Hc Hl. exact (Hc reg v Hl). Qed.

(** The merge-and-write half of [regmap_update_bits], once the current
    content [orig] of ATIME is known from the cache. *)
Lemma atime_merge_commit map orig v map' :
  driver_regmap map -> cache_coherent map ->
  Regmap.cache map !! APDS9960_REG_ATIME = Some orig ->
  0 <= v <= 255 ->
  (let tmp := Z.lor (Z.land orig (CInt.uint_not 0xff)) (Z.land v 0xff) in
   if tmp =? orig then (0, map)
   else Regmap.regmap_write map APDS9960_REG_ATIME tmp) = (0, map') ->
  atime_committed map map' v.
Proof.
  intros Hcfg Hcoh Hhit Hv. cbv zeta.
  destruct (cache_coherent_lookup _ _ _ Hcoh Hhit) as [Ho Hchip].
  rewrite update_bits_byte by assumption.
  destruct (Z.eqb_spec v orig) as [-> | Hne].
  - intros [= <-].
    refine (conj Hhit (conj Hchip (conj Hcfg (conj Hcoh _)))).
    exists []. split; [symmetry; apply app_nil_r | constructor].
  - rewrite regmap_write_atime by assumption.
    destruct (bus_write (Regmap.bus map) APDS9960_REG_ATIME v) as [ret b] eqn:Hw.
    intros [= -> <-].
    apply bus_write_spec in Hw as (Hlog & _ & Hok & _).
    specialize (Hok eq_refl). rewrite CInt.to_u8_id in Hok, Hlog by exact Hv.
    cbn [Regmap.cache Regmap.bus].
    assert (Hb : chip_byte b APDS9960_REG_ATIME = v).
    { unfold chip_byte. rewrite Hok, lookup_insert_eq. simpl.
      apply CInt.to_u8_id, Hv. }
    split; [apply lookup_insert_eq |].
    split; [exact Hb |].
    split; [exact Hcfg |].
    split.
    + intros reg x Hl. cbn [Regmap.cache Regmap.bus] in *.
      rewrite lookup_insert in Hl. case_decide as Hreg.
      * subst reg. injection Hl as <-. split; [exact Hv | exact Hb].
      * destruct (cache_coherent_lookup _ _ _ Hcoh Hl) as [Hx Hc].
        split; [exact Hx |].
        rewrite (chip_byte_insert_ne (Regmap.bus map) b _ reg _ Hok Hreg).
        exact Hc.
    + exists [BusWrite APDS9960_REG_ATIME v]. split; [exact Hlog |].
      constructor; [right; reflexivity | constructor].
Qed.

Lemma regmap_update_bits_atime map v map' :
  driver_regmap map -> cache_coherent map -> 0 <= v <= 255 ->
  Regmap.regmap_update_bits map APDS9960_REG_ATIME 0xff v = (0, map') ->
  atime_committed map map' v.
Proof.
  intros Hcfg Hcoh Hv. unfold Regmap.regmap_update_bits.
  rewrite regmap_read_atime by exact Hcfg.
  destruct (Regmap.cache map !! APDS9960_REG_ATIME) as [orig |] eqn:Hhit.
  - cbn [negb Z.eqb]. apply atime_merge_commit; assumption.
  - destruct (bus_read (Regmap.bus map) APDS9960_REG_ATIME) as [[ret v0] b] eqn:Hr.
    apply bus_read_spec in Hr as (Hchip & Hlog & _ & Hval).
    destruct (Z.eqb_spec ret 0) as [-> | Hret].
    + specialize (Hval eq_refl). cbn [negb Z.eqb].
      set (map1 := Regmap.mk (Regmap.config map)
                     (<[APDS9960_REG_ATIME := v0]> (Regmap.cache map)) b).
      assert (Hbyte : forall reg, chip_byte b reg = chip_byte (Regmap.bus map) reg).
      { intros reg. unfold chip_byte. rewrite Hchip. reflexivity. }
      assert (Hcoh1 : cache_coherent map1).
      { intros reg x Hl. cbn [map1 Regmap.cache Regmap.bus] in *.
        rewrite lookup_insert in Hl. case_decide as Hreg.
        - subst reg. injection Hl as <-. rewrite Hbyte, Hval.
          split; [apply CInt.to_u8_range | reflexivity].
        - rewrite Hbyte. exact (cache_coherent_lookup _ _ _ Hcoh Hl). }
      intros Hm.
      apply (atime_merge_commit map1 v0 v map') in Hm;
        [| exact Hcfg | exact Hcoh1 | apply lookup_insert_eq | exact Hv].
      destruct Hm as (H1 & H2 & H3 & H4 & ops & Hops & Hall).
      refine (conj H1 (conj H2 (conj H3 (conj H4 _)))).
      exists (BusRead APDS9960_REG_ATIME :: ops). split.
      * rewrite Hops. cbn [map1 Regmap.bus]. rewrite Hlog, <- app_assoc.
        reflexivity.
      * constructor; [left; reflexivity | exact Hall].
    + rewrite (proj2 (Z.eqb_neq ret 0) Hret). cbn [negb].
      intros [= E _]. contradiction.
Qed.

(** ** The gain switch *)

Lemma gain_supported_dec gain : {gain_supported gain} + {~ gain_supported gain}.
Proof. apply in_dec, Z.eq_dec. Defined.

Lemma write_raw_supported data chan val val2 :
  gain_supported (als_gain data) ->
  apds9960_write_raw data chan val val2 IIO_CHAN_INFO_INT_TIME
  = let '(ret, m) :=
      Regmap.regmap_update_bits (regmap data) APDS9960_REG_ATIME 0xff
        (CInt.to_uint (CInt.to_int (255 - val))) in
    (ret, set_regmap
            (set_als_adc_int_us data (int_time_stored val (als_gain data))) m).
Proof.
  intros Hg. rewrite write_raw_int_time. cbv zeta.
  destruct Hg as [E | [E | [E | [E | []]]]]; rewrite <- E; reflexivity.
Qed.

Lemma write_raw_unsupported data chan val val2 :
  ~ gain_supported (als_gain data) ->
  apds9960_write_raw data chan val val2 IIO_CHAN_INFO_INT_TIME
  = (- EINVAL, set_als_adc_int_us data (int_time_stored val (als_gain data))).
Proof.
  intros Hg. rewrite write_raw_int_time. cbv zeta.
  unfold gain_supported in Hg.
  generalize (int_time_stored val (als_gain data)). intros us.
  destruct (als_gain data) as [| p | p]; try reflexivity.
  repeat (destruct p as [p | p |]; try reflexivity);
    exfalso; apply Hg; simpl; tauto.
Qed.

(** Whatever the outcome, the integration-time path leaves the clamped
    value in [als_adc_int_us]. *)
Lemma write_raw_stores_clamped data chan val val2 :
  als_adc_int_us
    (snd (apds9960_write_raw data chan val val2 IIO_CHAN_INFO_INT_TIME))
  = int_time_stored val (als_gain data).
Proof.
  destruct (gain_supported_dec (als_gain data)) as [Hg | Hg].
  - rewrite write_raw_supported by exact Hg.
    destruct (Regmap.regmap_update_bits _ _ _ _) as [ret m]. reflexivity.
  - rewrite write_raw_unsupported by exact Hg. reflexivity.
Qed.


(** ** Sample devices *)

(** A chip with an empty register file and a transport without faults. *)
Definition bus_idle : i2c_bus := mk_bus ∅ [] [].

(** The private data right after the register set-up of [apds9960_probe]. *)
Definition data_probed : apds9960_data := snd (apds9960_probe_data bus_idle).

(** A device as it is once a gain has been selected. *)
Definition data_with_gain (gain : Z) : apds9960_data :=
  mk_data (regmap data_probed) (als_int data_probed) gain
          (als_adc_int_us data_probed).

Lemma data_probed_driver_regmap : driver_regmap (regmap data_probed).
Proof. reflexivity. Qed.

Lemma data_probed_coherent : cache_coherent (regmap data_probed).
Proof.
  assert (E : Regmap.cache (regmap data_probed) = {[APDS9960_REG_ATIME := 255]})
    by (vm_compute; reflexivity).
  unfold cache_coherent. rewrite E.
  apply map_Forall_singleton. split; [lia | vm_compute; reflexivity].
Qed.

(** ** Integration time: the write path *)



(** C3. For every requested value in [0,255] and every gain in
    {1,4,16,64}, the integration time stored by a successful write lies in
    [1000, 1000000]. *)
Theorem set_integration_time_in_range data chan val val2 data' :
  0 <= val <= 255 ->
  gain_supported (als_gain data) ->
  apds9960_write_raw data chan val val2 IIO_CHAN_INFO_INT_TIME = (0, data') ->
  1000 <= als_adc_int_us data' <= 1000000.
Proof.
  intros _ _ Hcall.
  pose proof (write_raw_stores_clamped data chan val val2) as Hus.
  rewrite Hcall in Hus. cbn [snd] in Hus. rewrite Hus.
  apply int_time_stored_bounds.
Qed.

Lemma set_integration_time_in_range_witness :
  1000 <= als_adc_int_us
            (snd (apds9960_write_raw (data_with_gain 4) end_of_channels 200 0
                    IIO_CHAN_INFO_INT_TIME)) <= 1000000.
Proof.
  apply (set_integration_time_in_range
           (data_with_gain 4) end_of_channels 200 0).
  - lia.
  - unfold gain_supported. simpl. tauto.
  - vm_compute. reflexivity.
Defined.

(** C4. For every gain outside {1,4,16,64} the integration-time write
    returns -EINVAL and leaves the register map as it was: no transfer is
    logged on the bus, and neither the chip nor the cache changes. *)
Theorem invalid_gain_rejected_before_bus_access data chan val val2 :
  ~ gain_supported (als_gain data) ->
  fst (apds9960_write_raw data chan val val2 IIO_CHAN_INFO_INT_TIME) = - EINVAL
  /\ regmap (snd (apds9960_write_raw data chan val val2 IIO_CHAN_INFO_INT_TIME))
     = regmap data
  /\ bus_log (Regmap.bus (regmap
       (snd (apds9960_write_raw data chan val val2 IIO_CHAN_INFO_INT_TIME))))
     = bus_log (Regmap.bus (regmap data)).
Proof.
  intros Hg. rewrite write_raw_unsupported by exact Hg.
  cbn [fst snd regmap set_als_adc_int_us]. auto.
Qed.

Lemma invalid_gain_rejected_before_bus_access_witness :
  fst (apds9960_write_raw (data_with_gain 5) end_of_channels 128 0
         IIO_CHAN_INFO_INT_TIME) = - EINVAL
  /\ regmap (snd (apds9960_write_raw (data_with_gain 5) end_of_channels 128 0
                    IIO_CHAN_INFO_INT_TIME))
     = regmap (data_with_gain 5)
  /\ bus_log (Regmap.bus (regmap
       (snd (apds9960_write_raw (data_with_gain 5) end_of_channels 128 0
               IIO_CHAN_INFO_INT_TIME))))
     = bus_log (Regmap.bus (regmap (data_with_gain 5))).
Proof.
  apply (invalid_gain_rejected_before_bus_access
           (data_with_gain 5) end_of_channels 128 0).
  unfold gain_supported. simpl. lia.
Defined.

(** On the documented domain the stored value is the exact product capped
    at one second. *)
Lemma int_time_stored_exact val gain :
  0 <= val <= 255 -> gain_supported gain ->
  int_time_stored val gain = Z.min (1000 * (256 - val) * gain) 1000000.
Proof.
  intros Hv Hg. unfold int_time_stored.
  destruct (int_time_no_truncation val gain Hv Hg) as [-> Hb].
  unfold clamp, APDS9960_MAX_INT_TIME_IN_US. lia.
Qed.

(** C10, as the code has it.  For val = 0 and gain = 64 the [long long]
    product is 16 384 000 000, but it is divided by 1000 before the store:
    the quotient 16 384 000 fits an [int] unchanged, and the stored
    integration time is clamped to the upper bound 1 000 000. *)
Theorem gain64_val0_clamped_to_upper_bound data chan val2 :
  als_gain data = 64 ->
  CInt.to_s64 (CInt.to_s64 (1000000 * CInt.to_int (256 - 0)) * als_gain data)
  = 16384000000
  /\ int_time_ll 0 (als_gain data) = 16384000
  /\ CInt.to_int (int_time_ll 0 (als_gain data)) = 16384000
  /\ als_adc_int_us
       (snd (apds9960_write_raw data chan 0 val2 IIO_CHAN_INFO_INT_TIME))
     = APDS9960_MAX_INT_TIME_IN_US.
Proof.
  intros Hg. rewrite write_raw_stores_clamped, Hg.
  assert (Hll : int_time_ll 0 64 = 16384000).
  { rewrite int_time_ll_exact by lia. reflexivity. }
  unfold int_time_stored. rewrite Hll.
  repeat split; try reflexivity.
Qed.

Lemma gain64_val0_clamped_to_upper_bound_witness :
  CInt.to_s64 (CInt.to_s64 (1000000 * CInt.to_int (256 - 0))
               * als_gain (data_with_gain 64))
  = 16384000000
  /\ int_time_ll 0 (als_gain (data_with_gain 64)) = 16384000
  /\ CInt.to_int (int_time_ll 0 (als_gain (data_with_gain 64))) = 16384000
  /\ als_adc_int_us
       (snd (apds9960_write_raw (data_with_gain 64) end_of_channels 0 0
               IIO_CHAN_INFO_INT_TIME))
     = APDS9960_MAX_INT_TIME_IN_US.
Proof.
  apply (gain64_val0_clamped_to_upper_bound (data_with_gain 64)
           end_of_channels 0).
  reflexivity.
Defined.

(** C10 as claimed fails at its own input: the value stored before the
    clamp is not negative, and the final value is not the lower bound. *)
Lemma gain64_val0_not_truncated :
  CInt.to_int (int_time_ll 0 64) = 16384000
  /\ ~ CInt.to_int (int_time_ll 0 64) < 0
  /\ als_adc_int_us
       (snd (apds9960_write_raw (data_with_gain 64) end_of_channels 0 0
               IIO_CHAN_INFO_INT_TIME)) = 1000000
  /\ als_adc_int_us
       (snd (apds9960_write_raw (data_with_gain 64) end_of_channels 0 0
               IIO_CHAN_INFO_INT_TIME)) <> 1000.
Proof.
  assert (E : CInt.to_int (int_time_ll 0 64) = 16384000) by (vm_compute; reflexivity).
  rewrite write_raw_stores_clamped. unfold int_time_stored.
  cbn [als_gain data_with_gain]. rewrite E.
  repeat split; [lia | discriminate].
Qed.

(** A transport whose next transfers fail as scheduled. *)
Definition with_faults (data : apds9960_data) (fs : list Z) : apds9960_data :=
  set_regmap data
    (Regmap.with_bus (regmap data)
       (mk_bus (chip (Regmap.bus (regmap data)))
               (bus_log (Regmap.bus (regmap data))) fs)).

(** C2 does not hold of the code: the integration time is stored before
    the gain is examined and before the register is written, so a failed
    call has already replaced it.  Three failing calls: the device right
    after probe (gain 0), the gain 5 of the specification's example, and a
    supported gain with a transfer that fails. *)
Theorem failed_write_replaces_int_time :
  (fst (apds9960_write_raw data_probed end_of_channels 0 0
          IIO_CHAN_INFO_INT_TIME) = - EINVAL
   /\ als_adc_int_us data_probed = 0
   /\ als_adc_int_us
        (snd (apds9960_write_raw data_probed end_of_channels 0 0
                IIO_CHAN_INFO_INT_TIME)) = 1000)
  /\ (fst (apds9960_write_raw (data_with_gain 5) end_of_channels 128 0
             IIO_CHAN_INFO_INT_TIME) = - EINVAL
      /\ als_adc_int_us (data_with_gain 5) = 0
      /\ als_adc_int_us
           (snd (apds9960_write_raw (data_with_gain 5) end_of_channels 128 0
                   IIO_CHAN_INFO_INT_TIME)) = 640000)
  /\ (fst (apds9960_write_raw (with_faults (data_with_gain 1) [- EIO])
             end_of_channels 100 0 IIO_CHAN_INFO_INT_TIME) = - EIO
      /\ als_adc_int_us (with_faults (data_with_gain 1) [- EIO]) = 0
      /\ als_adc_int_us
           (snd (apds9960_write_raw (with_faults (data_with_gain 1) [- EIO])
                   end_of_channels 100 0 IIO_CHAN_INFO_INT_TIME)) = 156000).
Proof.
  split; [| split].
  - rewrite write_raw_stores_clamped.
    rewrite write_raw_unsupported by (unfold gain_supported; simpl; lia).
    repeat split; vm_compute; reflexivity.
  - rewrite write_raw_stores_clamped.
    rewrite write_raw_unsupported by (unfold gain_supported; simpl; lia).
    repeat split; vm_compute; reflexivity.
  - rewrite write_raw_stores_clamped.
    repeat split; vm_compute; reflexivity.
Qed.


(** ** Scale queries and raw reads *)

Definition colour_supported (m : iio_modifier) : Prop :=
  In m [IIO_MOD_LIGHT_CLEAR; IIO_MOD_LIGHT_RED;
        IIO_MOD_LIGHT_GREEN; IIO_MOD_LIGHT_BLUE].

(** A device around the probed private data, with no event pushed yet. *)
Definition dev_probed : iio_dev := mk_dev data_probed [].

(** A channel-info lookup that succeeds and leaves everything as it is. *)
Definition lookup_ok : ext_info_lookup :=
  fun dev _ _ v v2 => (0, v, v2, dev).

(** A channel-info lookup that fails with an I/O error. *)
Definition lookup_failing : ext_info_lookup :=
  fun dev _ _ v v2 => (- EIO, v, v2, dev).

(** C5, as the code has it.  For each of the four colours the scale query
    first delegates to the channel-info lookup: when the lookup reports an
    error the query returns that error, otherwise it returns the fixed
    fraction 0 / 10000 (IIO_VAL_FRACTIONAL_LOG2).  For any other channel it
    returns -EINVAL, without consulting the lookup and with the device,
    and so its bus, untouched. *)
Theorem scale_query_fixed_fraction
    (lookup : ext_info_lookup) indio_dev chan val val2 :
  (colour_supported (channel2 chan) ->
   apds9960_read_raw lookup indio_dev chan val val2 IIO_CHAN_INFO_SCALE
   = let '(ret, v, v2, dev) := lookup indio_dev chan (channel2 chan) val val2 in
     if ret =? 0 then (IIO_VAL_FRACTIONAL_LOG2, 0, 10000, dev)
     else (ret, v, v2, dev))
  /\ (~ colour_supported (channel2 chan) ->
      apds9960_read_raw lookup indio_dev chan val val2 IIO_CHAN_INFO_SCALE
      = (- EINVAL, val, val2, indio_dev)).
Proof.
  unfold colour_supported, apds9960_read_raw. split.
  - intros Hc.
    destruct (channel2 chan); simpl in Hc;
      try (exfalso; intuition discriminate);
      destruct (lookup indio_dev chan _ val val2) as [[[ret v] v2] dev];
      destruct (ret =? 0); reflexivity.
  - intros Hc.
    destruct (channel2 chan); try reflexivity; exfalso; apply Hc; simpl; tauto.
Qed.

Lemma scale_query_fixed_fraction_witness :
  apds9960_read_raw lookup_ok dev_probed
    (als_chan IIO_MOD_LIGHT_RED IDX_ALS_RED) 7 7 IIO_CHAN_INFO_SCALE
  = (IIO_VAL_FRACTIONAL_LOG2, 0, 10000, dev_probed)
  /\ apds9960_read_raw lookup_ok dev_probed end_of_channels 7 7
       IIO_CHAN_INFO_SCALE
     = (- EINVAL, 7, 7, dev_probed).
Proof.
  split.
  - apply (proj1 (scale_query_fixed_fraction lookup_ok dev_probed
                    (als_chan IIO_MOD_LIGHT_RED IDX_ALS_RED) 7 7)).
    unfold colour_supported. simpl. tauto.
  - apply (proj2 (scale_query_fixed_fraction lookup_ok dev_probed
                    end_of_channels 7 7)).
    unfold colour_supported. simpl. intuition discriminate.
Defined.

(** C5 as claimed fails when the lookup fails: the red channel's scale
    query then returns the lookup's error, not the fixed fraction. *)
Lemma scale_query_lookup_error :
  apds9960_read_raw lookup_failing dev_probed
    (als_chan IIO_MOD_LIGHT_RED IDX_ALS_RED) 7 7 IIO_CHAN_INFO_SCALE
  = (- EIO, 7, 7, dev_probed)
  /\ apds9960_read_raw lookup_failing dev_probed
       (als_chan IIO_MOD_LIGHT_RED IDX_ALS_RED) 7 7 IIO_CHAN_INFO_SCALE
     <> (IIO_VAL_FRACTIONAL_LOG2, 0, 10000, dev_probed).
Proof.
  assert (E : apds9960_read_raw lookup_failing dev_probed
                (als_chan IIO_MOD_LIGHT_RED IDX_ALS_RED) 7 7 IIO_CHAN_INFO_SCALE
              = (- EIO, 7, 7, dev_probed)) by reflexivity.
  split; [exact E |]. rewrite E. intros [=].
Qed.

(** The two bytes of a channel's 16-bit register. *)
Definition als_channel_bytes (colour : apds9960_als_channel_idx) : list Z :=
  [APDS9960_REG_ALS_CHANNEL colour; APDS9960_REG_ALS_CHANNEL colour + 1].

(** C6 does not hold of the code.  Every colour channel advertises a raw
    read in [info_mask_separate], yet [apds9960_read_raw] has no case for
    it: the call returns -EINVAL with the outputs and the device untouched
    (no transfer at all).  And of the eight channel bytes only 0x94..0x96
    are volatile and 0x9b is not readable. *)
Theorem raw_read_not_implemented :
  (forall (lookup : ext_info_lookup) indio_dev chan val val2,
      apds9960_read_raw lookup indio_dev chan val val2 IIO_CHAN_INFO_RAW
      = (- EINVAL, val, val2, indio_dev))
  /\ Forall (fun chan => colour_supported (channel2 chan) ->
                         In IIO_CHAN_INFO_RAW (info_mask_separate chan))
            apds9960_channels
  /\ map (fun colour =>
            map (Regmap.regmap_volatile apds9960_regmap_config)
                (als_channel_bytes colour))
         [IDX_ALS_CLEAR; IDX_ALS_RED; IDX_ALS_GREEN; IDX_ALS_BLUE]
     = [[true; true]; [true; false]; [false; false]; [false; false]]
  /\ map (fun colour =>
            map (Regmap.regmap_readable apds9960_regmap_config)
                (als_channel_bytes colour))
         [IDX_ALS_CLEAR; IDX_ALS_RED; IDX_ALS_GREEN; IDX_ALS_BLUE]
     = [[true; true]; [true; true]; [true; true]; [true; false]].
Proof.
  split; [| split; [| split]].
  - intros lookup indio_dev chan val val2. reflexivity.
  - unfold apds9960_channels, colour_supported.
    repeat (constructor; [simpl; intuition discriminate |]).
    constructor.
  - reflexivity.
  - reflexivity.
Qed.

(** ** The event-enable register *)

Lemma clear_policy :
  Regmap.regmap_volatile apds9960_regmap_config
    (APDS9960_REG_ALS_CHANNEL IDX_ALS_CLEAR) = true
  /\ Regmap.regmap_readable apds9960_regmap_config
       (APDS9960_REG_ALS_CHANNEL IDX_ALS_CLEAR) = true
  /\ Regmap.regmap_writeable apds9960_regmap_config
       (APDS9960_REG_ALS_CHANNEL IDX_ALS_CLEAR) = true.
Proof. repeat split. Qed.

(** A read of the clear-channel register always goes to the bus and
    leaves the cache alone. *)
Lemma regmap_read_clear map val :
  driver_regmap map ->
  Regmap.regmap_read map (APDS9960_REG_ALS_CHANNEL IDX_ALS_CLEAR) val
  = let '(ret, v, b) :=
      bus_read (Regmap.bus map) (APDS9960_REG_ALS_CHANNEL IDX_ALS_CLEAR) in
    if ret =? 0 then (0, v, Regmap.with_bus map b)
    else (ret, val, Regmap.with_bus map b).
Proof.
  intros Hcfg. destruct map as [cfg c b]. unfold driver_regmap in Hcfg.
  simpl in Hcfg. subst cfg.
  unfold Regmap.regmap_read, Regmap.regcache_read, Regmap.regcache_write,
    Regmap.with_bus.
  cbn [Regmap.config Regmap.cache Regmap.bus].
  destruct clear_policy as (-> & -> & _).
  cbn [cache_type apds9960_regmap_config negb].
  destruct (bus_read b _) as [[ret v] b']. reflexivity.
Qed.

(** A write of the clear-channel register goes to the bus only. *)
Lemma regmap_write_clear map val :
  driver_regmap map ->
  Regmap.regmap_write map (APDS9960_REG_ALS_CHANNEL IDX_ALS_CLEAR) val
  = let '(ret, b) :=
      bus_write (Regmap.bus map) (APDS9960_REG_ALS_CHANNEL IDX_ALS_CLEAR) val in
    (ret, Regmap.with_bus map b).
Proof.
  intros Hcfg. destruct map as [cfg c b]. unfold driver_regmap in Hcfg.
  simpl in Hcfg. subst cfg.
  unfold Regmap.regmap_write, Regmap.regcache_write, Regmap.with_bus.
  cbn [Regmap.config Regmap.cache Regmap.bus].
  destruct clear_policy as (-> & _ & ->).
  cbn [cache_type apds9960_regmap_config negb].
  reflexivity.
Qed.

(** C7, as the code has it.  After a successful
    [apds9960_als_write_event_config] of an enable value, a query issued
    while the transport works returns 0 (the status of the register read)
    and leaves the value written in the cached field [als_int]: the value
    is observed through the device state, not through the result. *)
Theorem event_config_round_trip data state data1 :
  driver_regmap (regmap data) ->
  0 <= state <= 255 ->
  apds9960_als_write_event_config data state = (0, data1) ->
  next_transfer_ok (Regmap.bus (regmap data1)) ->
  exists data2,
    apds9960_als_read_event_config data1 = (0, data2)
    /\ als_int data2 = state.
Proof.
  intros Hcfg Hs Hw Hok.
  unfold apds9960_als_write_event_config in Hw.
  rewrite regmap_write_clear in Hw by exact Hcfg.
  rewrite CInt.to_uint_id in Hw by lia.
  destruct (bus_write (Regmap.bus (regmap data)) _ state) as [ret b] eqn:Hbw.
  injection Hw as -> <-.
  apply bus_write_spec in Hbw as (_ & _ & Hchip & _).
  specialize (Hchip eq_refl).
  cbn [regmap set_regmap Regmap.bus Regmap.with_bus] in Hok.
  unfold apds9960_als_read_event_config.
  cbn [regmap set_regmap als_int].
  rewrite regmap_read_clear by exact Hcfg.
  cbn [Regmap.bus Regmap.with_bus].
  rewrite bus_read_ok by exact Hok.
  cbn [Z.eqb]. eexists. split; [reflexivity |].
  cbn [als_int set_als_int].
  unfold chip_byte. rewrite Hchip, lookup_insert_eq.
  change (default 0 (Some (CInt.to_u8 state))) with (CInt.to_u8 state).
  rewrite !(CInt.to_u8_id state) by lia. apply CInt.to_int_id. lia.
Qed.

Lemma event_config_round_trip_witness :
  exists data2,
    apds9960_als_read_event_config
      (snd (apds9960_als_write_event_config data_probed 1)) = (0, data2)
    /\ als_int data2 = 1.
Proof.
  apply (event_config_round_trip data_probed 1).
  - exact data_probed_driver_regmap.
  - lia.
  - vm_compute. reflexivity.
  - left. vm_compute. reflexivity.
Defined.

(** C7 as claimed fails: after enabling, the query's result is 0, the
    value IIO reads as "disabled", not the 1 that was written. *)
Lemma event_query_returns_status :
  fst (apds9960_als_write_event_config data_probed 1) = 0
  /\ fst (apds9960_als_read_event_config
            (snd (apds9960_als_write_event_config data_probed 1))) = 0
  /\ fst (apds9960_als_read_event_config
            (snd (apds9960_als_write_event_config data_probed 1))) <> 1.
Proof.
  assert (E : fst (apds9960_als_read_event_config
                     (snd (apds9960_als_write_event_config data_probed 1))) = 0)
    by (vm_compute; reflexivity).
  rewrite E. split; [vm_compute; reflexivity | split; [reflexivity | lia]].
Qed.

(** C8, as the code has it.  The clear-channel register that stores the
    event enable is volatile and not precious (the precious table covers
    0x98..0x9a only).  Being volatile it is never cached: whatever the
    cache holds, an event-config query issues exactly one bus read of that
    register and leaves the cache as it was. *)
Theorem event_register_volatile_not_precious :
  Regmap.regmap_volatile apds9960_regmap_config
    (APDS9960_REG_ALS_CHANNEL IDX_ALS_CLEAR) = true
  /\ Regmap.regmap_precious apds9960_regmap_config
       (APDS9960_REG_ALS_CHANNEL IDX_ALS_CLEAR) = false
  /\ (forall reg,
        Regmap.regmap_precious apds9960_regmap_config reg = true
        <-> 0x98 <= reg <= 0x9a)
  /\ (forall c b i g us,
        let data := mk_data (Regmap.mk apds9960_regmap_config c b) i g us in
        let data' := snd (apds9960_als_read_event_config data) in
        Regmap.regcache_read (regmap data)
          (APDS9960_REG_ALS_CHANNEL IDX_ALS_CLEAR) = None
        /\ Regmap.cache (regmap data') = c
        /\ bus_log (Regmap.bus (regmap data'))
           = bus_log b ++ [BusRead (APDS9960_REG_ALS_CHANNEL IDX_ALS_CLEAR)]).
Proof.
  split; [reflexivity |]. split; [reflexivity |]. split.
  - intros reg.
    unfold Regmap.regmap_precious, Regmap.regmap_readable,
      Regmap.regmap_check_range_table, Regmap.regmap_reg_in_ranges,
      Regmap.regmap_reg_in_range.
    cbn -[Z.leb Z.ltb].
    change (APDS9960_REG_ALS_BASE + 6) with 154.
    change (APDS9960_REG_ALS_BASE + 4) with 152.
    change APDS9960_REG_ATIME with 129.
    destruct (Z.ltb_spec 154 reg), (Z.leb_spec 129 reg), (Z.leb_spec reg 154),
      (Z.leb_spec 152 reg); cbn; split; intros; try discriminate; try lia;
      reflexivity.
  - intros c b i g us data data'. split; [reflexivity |].
    subst data data'. unfold apds9960_als_read_event_config.
    cbn [regmap als_int].
    rewrite regmap_read_clear by reflexivity.
    cbn [Regmap.bus].
    destruct (bus_read b _) as [[ret v] b'] eqn:Hr.
    apply bus_read_spec in Hr as (_ & Hlog & _ & _).
    destruct (ret =? 0); cbn [snd regmap set_als_int set_regmap Regmap.cache
                                Regmap.bus Regmap.with_bus]; auto.
Qed.

(** C8 as claimed fails: the policy does not tag the register precious. *)
Lemma event_register_not_precious :
  Regmap.regmap_precious apds9960_regmap_config
    (APDS9960_REG_ALS_CHANNEL IDX_ALS_CLEAR) = false
  /\ Regmap.regmap_precious apds9960_regmap_config
       (APDS9960_REG_ALS_CHANNEL IDX_ALS_CLEAR) <> true.
Proof.
  assert (E : Regmap.regmap_precious apds9960_regmap_config
                (APDS9960_REG_ALS_CHANNEL IDX_ALS_CLEAR) = false)
    by (vm_compute; reflexivity).
  rewrite E. split; [reflexivity | discriminate].
Qed.

(** ** The interrupt handler *)

(** A run of interrupt assertions: the handler is entered once per
    assertion, with the clock reading of that moment. *)
Fixpoint irq_assertions (irq : Z) (indio_dev : iio_dev) (clock : list Z)
  : iio_dev :=
  match clock with
  | [] => indio_dev
  | now :: later =>
      irq_assertions irq (snd (apds9960_als_irq_handler irq indio_dev now)) later
  end.

(** The event the handler pushes at clock reading [now]. *)
Definition als_event (data : apds9960_data) (now : Z) : iio_event :=
  mk_event (CInt.to_u64 (als_int data)) (CInt.to_s64 now).

Lemma irq_handler_step irq indio_dev now :
  apds9960_als_irq_handler irq indio_dev now
  = (IRQ_HANDLED,
     mk_dev (priv indio_dev)
            (events indio_dev ++ [als_event (priv indio_dev) now])).
Proof. reflexivity. Qed.

Lemma irq_assertions_spec irq clock : forall indio_dev,
  priv (irq_assertions irq indio_dev clock) = priv indio_dev
  /\ events (irq_assertions irq indio_dev clock)
     = events indio_dev ++ map (als_event (priv indio_dev)) clock.
Proof.
  induction clock as [| now later IH]; intros indio_dev.
  - simpl. split; [reflexivity | symmetry; apply app_nil_r].
  - cbn [irq_assertions]. rewrite irq_handler_step. cbn [snd].
    destruct (IH (mk_dev (priv indio_dev)
                    (events indio_dev ++ [als_event (priv indio_dev) now])))
      as [Hp He].
    cbn [priv events] in Hp, He. split; [exact Hp |].
    rewrite He, <- app_assoc. reflexivity.
Qed.

(** The readings of a clock that fit the [s64] timestamp of an event. *)
Definition s64_reading (t : Z) : Prop :=
  - 9223372036854775808 <= t < 9223372036854775808.

Lemma event_timestamps_are_readings data clock :
  Forall s64_reading clock ->
  map ev_timestamp (map (als_event data) clock) = clock.
Proof.
  induction 1 as [| t clock Ht _ IH]; [reflexivity |].
  cbn [map als_event ev_timestamp]. rewrite IH.
  rewrite CInt.to_s64_id by exact Ht. reflexivity.
Qed.

(** C9, as the code has it.  Each interrupt assertion makes the handler
    push exactly one event, whose timestamp is what [iio_get_time_ns]
    returns at that assertion and whose code is the cached [als_int]; the
    handler returns IRQ_HANDLED and leaves the private data, register map
    and bus included, as it found them.  Over any run of assertions the
    queue grows by one event per assertion, in order, and the bus log does
    not change.  The timestamps are the clock's readings: they are
    monotonic when the readings are, and the driver does nothing to make
    them so. *)
Theorem irq_handler_one_event_no_bus_io irq indio_dev clock :
  (forall now,
      fst (apds9960_als_irq_handler irq indio_dev now) = IRQ_HANDLED
      /\ events (snd (apds9960_als_irq_handler irq indio_dev now))
         = events indio_dev
           ++ [mk_event (CInt.to_u64 (als_int (priv indio_dev)))
                        (CInt.to_s64 now)]
      /\ priv (snd (apds9960_als_irq_handler irq indio_dev now))
         = priv indio_dev)
  /\ events (irq_assertions irq indio_dev clock)
     = events indio_dev ++ map (als_event (priv indio_dev)) clock
  /\ length (events (irq_assertions irq indio_dev clock))
     = (length (events indio_dev) + length clock)%nat
  /\ map ev_timestamp (map (als_event (priv indio_dev)) clock)
     = map CInt.to_s64 clock
  /\ (Forall s64_reading clock ->
      StronglySorted Z.le clock ->
      StronglySorted Z.le
        (map ev_timestamp (map (als_event (priv indio_dev)) clock)))
  /\ bus_log (Regmap.bus (regmap (priv (irq_assertions irq indio_dev clock))))
     = bus_log (Regmap.bus (regmap (priv indio_dev))).
Proof.
  destruct (irq_assertions_spec irq clock indio_dev) as [Hp He].
  split; [intros now; rewrite irq_handler_step; auto |].
  split; [exact He |].
  split; [rewrite He, length_app, length_map; reflexivity |].
  split; [rewrite map_map; reflexivity |].
  split; [| rewrite Hp; reflexivity].
  intros Hfit Hsorted. rewrite event_timestamps_are_readings by exact Hfit.
  exact Hsorted.
Qed.

(** Two assertions at increasing clock readings. *)
Lemma irq_handler_one_event_no_bus_io_witness :
  StronglySorted Z.le
    (map ev_timestamp (map (als_event (priv dev_probed)) [1000; 2000])).
Proof.
  apply (proj1 (proj2 (proj2 (proj2 (proj2
           (irq_handler_one_event_no_bus_io 17 dev_probed [1000; 2000])))))).
  - repeat constructor; unfold s64_reading; lia.
  - repeat constructor; lia.
Defined.

(** C9 as claimed fails when the clock steps back between two assertions:
    the two events carry the readings 2000 and 1000, in that order. *)
Lemma irq_timestamps_follow_clock_back :
  map ev_timestamp (events (irq_assertions 17 dev_probed [2000; 1000]))
  = [2000; 1000]
  /\ ~ StronglySorted Z.le
        (map ev_timestamp (events (irq_assertions 17 dev_probed [2000; 1000]))).
Proof.
  assert (E : map ev_timestamp
                (events (irq_assertions 17 dev_probed [2000; 1000]))
              = [2000; 1000]) by (vm_compute; reflexivity).
  rewrite E. split; [reflexivity |].
  intros H. inversion H as [| t rest _ Hall]; subst.
  inversion Hall as [| t' rest' Hle _]; subst. lia.
Qed.

(** * Probe, remove and the life of a device *)

Definition ENOMEM : Z := 12.

(** Calls into the kernel that the driver makes for their effect.  The two
    tear-down calls of the IIO core carry the device pointer they are
    given ([None] for NULL). *)
Inductive kernel_call :=
| call_triggered_buffer_setup
| call_triggered_event_setup
| call_request_threaded_irq
| call_pm_runtime_set_active
| call_pm_runtime_enable
| call_pm_runtime_disable
| call_pm_runtime_put_noidle
| call_iio_device_register
| call_iio_device_unregister (indio_dev : option iio_dev)
| call_triggered_event_cleanup (indio_dev : option iio_dev).

(** What the kernel answers to [apds9960_probe]: whether the allocation
    succeeded, the error carried by the register map pointer (0 when it is
    not an error pointer), and the return codes of the set-up calls. *)
Record probe_env := {
  alloc_ok : bool;
  regmap_init_err : Z;
  buffer_setup_ret : Z;
  event_setup_ret : Z;
  request_irq_ret : Z;
  pm_set_active_ret : Z;
  device_register_ret : Z;
}.

(** What [apds9960_probe] leaves: its return code, the bus, the device
    when it stays bound (the managed allocations are released when probe
    fails), and the kernel calls made, oldest first. *)
Record probe_result := mk_probe_result {
  probe_ret : Z;
  probe_bus : i2c_bus;
  probe_dev : option iio_dev;
  probe_calls : list kernel_call;
}.

Definition apds9960_probe (env : probe_env) (b : i2c_bus) : probe_result :=
  if negb (alloc_ok env) then mk_probe_result (- ENOMEM) b None []
  else if negb (regmap_init_err env =? 0)
  then mk_probe_result (regmap_init_err env) b None []
  else
    let '(ret, data) := apds9960_probe_data b in
    let b1 := Regmap.bus (regmap data) in
    if negb (ret =? 0) then mk_probe_result ret b1 None []
    else
      let calls := [call_triggered_buffer_setup] in
      let ret := buffer_setup_ret env in
      if negb (ret =? 0) then mk_probe_result ret b1 None calls
      else
        let calls := calls ++ [call_triggered_event_setup] in
        let ret := event_setup_ret env in
        if negb (ret =? 0) then mk_probe_result ret b1 None calls
        else
          let calls := calls ++ [call_request_threaded_irq] in
          let ret := request_irq_ret env in
          if negb (ret =? 0) then mk_probe_result ret b1 None calls
          else
            let calls := calls ++ [call_pm_runtime_set_active] in
            let ret := pm_set_active_ret env in
            if negb (ret =? 0) then mk_probe_result ret b1 None calls
            else
              let calls := calls ++ [call_pm_runtime_enable] in
              let calls := calls ++ [call_iio_device_register] in
              let ret := device_register_ret env in
              if negb (ret =? 0)
              then mk_probe_result ret b1 None
                     (calls ++ [call_pm_runtime_disable;
                                call_pm_runtime_put_noidle])
              else mk_probe_result ret b1 (Some (mk_dev data [])) calls.





(** Outstanding [pm_runtime_enable] calls in a sequence of kernel calls. *)
Fixpoint pm_enable_balance (calls : list kernel_call) : Z :=
  match calls with
  | [] => 0
  | call_pm_runtime_enable :: rest => pm_enable_balance rest + 1
  | call_pm_runtime_disable :: rest => pm_enable_balance rest - 1
  | _ :: rest => pm_enable_balance rest
  end.

(** An environment in which every set-up step succeeds. *)
Definition env_ok : probe_env :=
  {| alloc_ok := true; regmap_init_err := 0; buffer_setup_ret := 0;
     event_setup_ret := 0; request_irq_ret := 0; pm_set_active_ret := 0;
     device_register_ret := 0 |}.

(** The entry points the kernel may call on a bound device. *)
Inductive driver_call :=
| CallWriteRaw (chan : iio_chan_spec) (val val2 : Z) (mask : iio_chan_info_enum)
| CallReadEventConfig
| CallWriteEventConfig (state : Z)
| CallIrq (irq now : Z).

Definition driver_step (indio_dev : iio_dev) (c : driver_call) : iio_dev :=
  match c with
  | CallWriteRaw chan val val2 mask =>
      set_priv indio_dev
        (snd (apds9960_write_raw (priv indio_dev) chan val val2 mask))
  | CallReadEventConfig =>
      set_priv indio_dev (snd (apds9960_als_read_event_config (priv indio_dev)))
  | CallWriteEventConfig state =>
      set_priv indio_dev
        (snd (apds9960_als_write_event_config (priv indio_dev) state))
  | CallIrq irq now => snd (apds9960_als_irq_handler irq indio_dev now)
  end.

Definition driver_run (indio_dev : iio_dev) (calls : list driver_call) : iio_dev :=
  fold_left driver_step calls indio_dev.

Lemma probe_data_spec b ret data :
  apds9960_probe_data b = (ret, data) ->
  driver_regmap (regmap data)
  /\ (forall reg v, Regmap.cache (regmap data) !! reg = Some v <->
                    reg = APDS9960_REG_ATIME /\ v = 0xff)
  /\ bus_write b APDS9960_REG_ATIME 0xff = (ret, Regmap.bus (regmap data))
  /\ als_int data = 0 /\ als_gain data = 0 /\ als_adc_int_us data = 0.
Proof.
  unfold apds9960_probe_data. cbn [regmap].
  rewrite regmap_write_atime by reflexivity.
  cbn [Regmap.regmap_init Regmap.bus Regmap.cache Regmap.config].
  destruct (bus_write b APDS9960_REG_ATIME 255) as [r b'] eqn:Hw.
  intros [= <- <-]. cbn [regmap set_regmap als_int als_gain als_adc_int_us
                          Regmap.bus Regmap.cache Regmap.config].
  split; [reflexivity |]. split; [| auto].
  intros reg v. cbn [cache_type apds9960_regmap_config reg_defaults
                     apds9960_reg_defaults map def_reg def_val list_to_map foldr
                     uncurry fst snd].
  rewrite insert_insert_eq, lookup_insert_Some, lookup_empty.
  split; [intros [[<- <-] | [_ H]]; [auto | discriminate] | intros [-> ->]; auto].
Qed.

Lemma probe_data_ret b :
  fst (apds9960_probe_data b) = 0 <-> next_transfer_ok b.
Proof.
  destruct (apds9960_probe_data b) as [ret data] eqn:Hp.
  apply probe_data_spec in Hp as (_ & _ & Hw & _).
  unfold bus_write in Hw. unfold next_transfer_ok. cbn [fst].
  destruct (faults b) as [| e fs]; cbn [head].
  - injection Hw as <- _. split; auto.
  - destruct (Z.eqb_spec e 0) as [-> | Hne]; injection Hw as <- _.
    + split; auto.
    + split; [intros ->; contradiction | intros [H | [= ->]]];
        [discriminate | contradiction].
Qed.

(** A step of probe returned a non-zero code: probe returns it and no
    device stays bound. *)
Ltac probe_step_failed :=
  cbn [probe_ret probe_dev]; split; split; try tauto;
  try (intros [? ?]; discriminate); intros; contradiction.

(** [apds9960_probe] succeeds exactly when every step of it does: the
    allocation, the register map, the first ATIME write, the buffer and
    event set-up, the interrupt request, pm_runtime_set_active and the
    device registration; only then does a device stay bound. *)
Theorem probe_succeeds_iff_every_step_does env b :
  (probe_ret (apds9960_probe env b) = 0 <->
   alloc_ok env = true /\ regmap_init_err env = 0 /\ next_transfer_ok b
   /\ buffer_setup_ret env = 0 /\ event_setup_ret env = 0
   /\ request_irq_ret env = 0 /\ pm_set_active_ret env = 0
   /\ device_register_ret env = 0)
  /\ (is_Some (probe_dev (apds9960_probe env b)) <->
      probe_ret (apds9960_probe env b) = 0).
Proof.
  pose proof (probe_data_ret b) as Hd.
  unfold apds9960_probe.
  destruct (alloc_ok env); cbn [negb].
  2: { cbn. split; split; try (intros [x Hx]; discriminate);
       intros H; try discriminate; destruct H; discriminate. }
  destruct (Z.eqb_spec (regmap_init_err env) 0) as [Hr | Hr]; cbn [negb].
  2: probe_step_failed.
  destruct (apds9960_probe_data b) as [ret data]. cbn [fst] in Hd.
  destruct (Z.eqb_spec ret 0) as [Hw | Hw]; cbn [negb].
  2: probe_step_failed.
  cbv zeta.
  destruct (Z.eqb_spec (buffer_setup_ret env) 0) as [H1 | H1]; cbn [negb].
  2: probe_step_failed.
  destruct (Z.eqb_spec (event_setup_ret env) 0) as [H2 | H2]; cbn [negb].
  2: probe_step_failed.
  destruct (Z.eqb_spec (request_irq_ret env) 0) as [H3 | H3]; cbn [negb].
  2: probe_step_failed.
  destruct (Z.eqb_spec (pm_set_active_ret env) 0) as [H4 | H4]; cbn [negb].
  2: probe_step_failed.
  destruct (Z.eqb_spec (device_register_ret env) 0) as [H5 | H5]; cbn [negb].
  2: probe_step_failed.
  cbn [probe_ret probe_dev]. split; split; try tauto; eauto.
Qed.

(** [apds9960_probe] puts at most one transfer on the bus: the write of
    0xff to ATIME, issued once the allocation and the register map are
    there, whether or not the later steps succeed; nothing is ever read. *)
Theorem probe_bus_traffic env b :
  bus_log (probe_bus (apds9960_probe env b))
  = bus_log b
    ++ (if alloc_ok env && (regmap_init_err env =? 0)
        then [BusWrite APDS9960_REG_ATIME 0xff] else []).
Proof.
  unfold apds9960_probe.
  destruct (alloc_ok env); cbn [negb andb];
    [| cbn; symmetry; apply app_nil_r].
  destruct (regmap_init_err env =? 0); cbn [negb];
    [| cbn; symmetry; apply app_nil_r].
  destruct (apds9960_probe_data b) as [ret data] eqn:Hp.
  apply probe_data_spec in Hp as (_ & _ & Hw & _).
  apply bus_write_spec in Hw as (Hlog & _).
  cbv zeta.
  repeat match goal with
         | |- context [if negb ?c then _ else _] => destruct c; cbn [negb]
         end; cbn [probe_bus]; exact Hlog.
Qed.

(** A device bound by a successful probe starts from a known state: the
    register map is the driver's, ATIME holds 0xff on the chip and in the
    cache, the cache agrees with the chip, the three integer fields of the
    private data are zero and no event is queued. *)
Theorem probe_initial_state env b indio_dev :
  probe_dev (apds9960_probe env b) = Some indio_dev ->
  driver_regmap (regmap (priv indio_dev))
  /\ cache_coherent (regmap (priv indio_dev))
  /\ Regmap.cache (regmap (priv indio_dev)) !! APDS9960_REG_ATIME = Some 0xff
  /\ chip_byte (Regmap.bus (regmap (priv indio_dev))) APDS9960_REG_ATIME = 0xff
  /\ als_int (priv indio_dev) = 0
  /\ als_gain (priv indio_dev) = 0
  /\ als_adc_int_us (priv indio_dev) = 0
  /\ events indio_dev = [].
Proof.
  unfold apds9960_probe.
  destruct (alloc_ok env); cbn [negb]; [| discriminate].
  destruct (regmap_init_err env =? 0); cbn [negb]; [| discriminate].
  destruct (apds9960_probe_data b) as [ret data] eqn:Hp.
  destruct (Z.eqb_spec ret 0) as [-> | Hne]; cbn [negb]; [| discriminate].
  cbv zeta.
  repeat match goal with
         | |- context [if negb ?c then _ else _] =>
             destruct c; cbn [negb]; [| discriminate]
         end.
  cbn [probe_dev]. intros [= <-]. cbn [priv events].
  apply probe_data_spec in Hp as (Hcfg & Hcache & Hw & Hi & Hg & Hus).
  apply bus_write_spec in Hw as (_ & _ & Hchip & _).
  specialize (Hchip eq_refl).
  assert (Hb : chip_byte (Regmap.bus (regmap data)) APDS9960_REG_ATIME = 0xff).
  { unfold chip_byte. rewrite Hchip, lookup_insert_eq. reflexivity. }
  split; [exact Hcfg |]. split.
  - intros reg v Hl. apply Hcache in Hl as [-> ->]. split; [lia | exact Hb].
  - split; [apply Hcache; auto |]. auto 10.
Qed.

Lemma probe_initial_state_witness :
  driver_regmap (regmap (priv dev_probed))
  /\ cache_coherent (regmap (priv dev_probed))
  /\ Regmap.cache (regmap (priv dev_probed)) !! APDS9960_REG_ATIME = Some 0xff
  /\ chip_byte (Regmap.bus (regmap (priv dev_probed))) APDS9960_REG_ATIME = 0xff
  /\ als_int (priv dev_probed) = 0
  /\ als_gain (priv dev_probed) = 0
  /\ als_adc_int_us (priv dev_probed) = 0
  /\ events dev_probed = [].
Proof.
  apply (probe_initial_state env_ok bus_idle dev_probed).
  vm_compute. reflexivity.
Defined.

(** Probe keeps runtime PM balanced.  A probe that fails leaves no
    [pm_runtime_enable] outstanding (the one made before a failing
    registration is undone by [pm_runtime_disable]); a probe that succeeds
    leaves exactly one. *)
Theorem probe_pm_balanced env b :
  pm_enable_balance (probe_calls (apds9960_probe env b))
  = (if probe_ret (apds9960_probe env b) =? 0 then 1 else 0).
Proof.
  unfold apds9960_probe.
  destruct (alloc_ok env); cbn [negb]; [| reflexivity].
  destruct (Z.eqb_spec (regmap_init_err env) 0) as [Hr | Hr]; cbn [negb].
  2: { cbn [probe_ret probe_calls].
       rewrite (proj2 (Z.eqb_neq _ _) Hr). reflexivity. }
  destruct (apds9960_probe_data b) as [ret data].
  destruct (Z.eqb_spec ret 0) as [Hw | Hw]; cbn [negb].
  2: { cbn [probe_ret probe_calls].
       rewrite (proj2 (Z.eqb_neq _ _) Hw). reflexivity. }
  cbv zeta.
  repeat match goal with
         | |- context [if negb (?x =? 0) then _ else _] =>
             let H := fresh "H" in
             destruct (Z.eqb_spec x 0) as [H | H]; cbn [negb];
             [| cbn [probe_ret probe_calls];
                rewrite (proj2 (Z.eqb_neq _ _) H); reflexivity]
         end.
  cbn [probe_ret probe_calls].
  match goal with H : device_register_ret env = 0 |- _ => rewrite H end.
  reflexivity.
Qed.



(** ** What no entry point does *)

Lemma write_raw_keeps_gain data chan val val2 mask :
  als_gain (snd (apds9960_write_raw data chan val val2 mask)) = als_gain data.
Proof.
  destruct mask; try reflexivity.
  destruct (gain_supported_dec (als_gain data)) as [Hg | Hg].
  - rewrite write_raw_supported by exact Hg.
    destruct (Regmap.regmap_update_bits _ _ _ _). reflexivity.
  - rewrite write_raw_unsupported by exact Hg. reflexivity.
Qed.

Lemma int_time_stored_gain0 val : int_time_stored val 0 = 1000.
Proof.
  unfold int_time_stored, int_time_ll. rewrite Z.mul_0_r. reflexivity.
Qed.

(** A transfer that concerns the clear-channel register. *)
Definition clear_op (op : bus_op) : Prop :=
  op = BusRead (APDS9960_REG_ALS_CHANNEL IDX_ALS_CLEAR)
  \/ exists v, op = BusWrite (APDS9960_REG_ALS_CHANNEL IDX_ALS_CLEAR) v.

(** The state every entry point keeps once the device is bound: the
    register map is the driver's and the gain is still zero. *)
Definition gain_unset (indio_dev : iio_dev) : Prop :=
  driver_regmap (regmap (priv indio_dev)) /\ als_gain (priv indio_dev) = 0.

Lemma gain0_unsupported data : als_gain data = 0 -> ~ gain_supported (als_gain data).
Proof. intros ->. unfold gain_supported. simpl. lia. Qed.

Lemma driver_step_gain_unset indio_dev c :
  gain_unset indio_dev ->
  gain_unset (driver_step indio_dev c)
  /\ exists ops,
       bus_log (Regmap.bus (regmap (priv (driver_step indio_dev c))))
       = bus_log (Regmap.bus (regmap (priv indio_dev))) ++ ops
       /\ Forall clear_op ops.
Proof.
  intros [Hcfg Hg]. unfold gain_unset.
  destruct c as [chan val val2 mask | | state | irq now];
    cbn [driver_step priv set_priv].
  - assert (E : regmap (snd (apds9960_write_raw (priv indio_dev) chan val val2 mask))
                = regmap (priv indio_dev)).
    { destruct mask; try reflexivity.
      rewrite write_raw_unsupported by (apply gain0_unsupported, Hg).
      reflexivity. }
    split; [split; [rewrite E; exact Hcfg | rewrite write_raw_keeps_gain; exact Hg] |].
    exists []. rewrite E, app_nil_r. split; [reflexivity | constructor].
  - unfold apds9960_als_read_event_config.
    rewrite regmap_read_clear by exact Hcfg.
    destruct (bus_read _ _) as [[ret v] b'] eqn:Hr.
    apply bus_read_spec in Hr as (_ & Hlog & _ & _).
    assert (Hops : Forall clear_op [BusRead (APDS9960_REG_ALS_CHANNEL IDX_ALS_CLEAR)])
      by (constructor; [left; reflexivity | constructor]).
    destruct (ret =? 0);
      cbn [regmap set_regmap set_als_int als_gain Regmap.bus Regmap.with_bus];
      (split; [split; [exact Hcfg | exact Hg] | eexists; split; [exact Hlog | exact Hops]]).
  - unfold apds9960_als_write_event_config.
    rewrite regmap_write_clear by exact Hcfg.
    destruct (bus_write _ _ _) as [ret b'] eqn:Hw.
    apply bus_write_spec in Hw as (Hlog & _).
    cbn [regmap set_regmap als_gain Regmap.bus Regmap.with_bus].
    split; [split; [exact Hcfg | exact Hg] |].
    eexists. split; [exact Hlog |].
    constructor; [right; eexists; reflexivity | constructor].
  - rewrite irq_handler_step. cbn [snd priv].
    split; [split; [exact Hcfg | exact Hg] |].
    exists []. rewrite app_nil_r. split; [reflexivity | constructor].
Qed.

Lemma driver_run_gain_unset calls : forall indio_dev,
  gain_unset indio_dev ->
  gain_unset (driver_run indio_dev calls)
  /\ exists ops,
       bus_log (Regmap.bus (regmap (priv (driver_run indio_dev calls))))
       = bus_log (Regmap.bus (regmap (priv indio_dev))) ++ ops
       /\ Forall clear_op ops.
Proof.
  induction calls as [| c calls IH]; intros indio_dev Hinv.
  - split; [exact Hinv |]. exists []. cbn. rewrite app_nil_r.
    split; [reflexivity | constructor].
  - destruct (driver_step_gain_unset indio_dev c Hinv) as (Hinv1 & ops1 & Hlog1 & Hops1).
    destruct (IH _ Hinv1) as (Hinv2 & ops2 & Hlog2 & Hops2).
    change (driver_run indio_dev (c :: calls))
      with (driver_run (driver_step indio_dev c) calls).
    split; [exact Hinv2 |]. exists (ops1 ++ ops2).
    rewrite Hlog2, Hlog1, <- app_assoc. split; [reflexivity |].
    apply Forall_app. split; assumption.
Qed.

Lemma probe_dev_gain_unset env b indio_dev :
  probe_dev (apds9960_probe env b) = Some indio_dev -> gain_unset indio_dev.
Proof.
  unfold apds9960_probe.
  destruct (alloc_ok env); cbn [negb]; [| discriminate].
  destruct (regmap_init_err env =? 0); cbn [negb]; [| discriminate].
  destruct (apds9960_probe_data b) as [ret data] eqn:Hp.
  apply probe_data_spec in Hp as (Hcfg & _ & _ & _ & Hg & _).
  cbv zeta.
  repeat match goal with
         | |- context [if negb ?c then _ else _] =>
             destruct c; cbn [negb]; [| discriminate]
         end.
  intros [= <-]. split; assumption.
Qed.

(** Nothing in the driver assigns [als_gain].  On a device bound by probe,
    after any sequence of integration-time writes, event-config reads and
    writes and interrupts, the gain is still zero; every integration-time
    write is therefore rejected with -EINVAL (leaving 1000 in
    [als_adc_int_us]), and every transfer issued since probe concerns the
    clear-channel register: ATIME is never written again. *)
Theorem gain_never_set env b indio_dev calls chan val val2 :
  probe_dev (apds9960_probe env b) = Some indio_dev ->
  als_gain (priv (driver_run indio_dev calls)) = 0
  /\ apds9960_write_raw (priv (driver_run indio_dev calls)) chan val val2
       IIO_CHAN_INFO_INT_TIME
     = (- EINVAL, set_als_adc_int_us (priv (driver_run indio_dev calls)) 1000)
  /\ exists ops,
       bus_log (Regmap.bus (regmap (priv (driver_run indio_dev calls))))
       = bus_log (Regmap.bus (regmap (priv indio_dev))) ++ ops
       /\ Forall clear_op ops.
Proof.
  intros Hp. apply probe_dev_gain_unset in Hp as [Hcfg Hg].
  destruct (driver_run_gain_unset calls indio_dev (conj Hcfg Hg))
    as ([_ Hg'] & Hops).
  split; [exact Hg' |]. split; [| exact Hops].
  rewrite write_raw_unsupported by (apply gain0_unsupported, Hg').
  rewrite Hg', int_time_stored_gain0. reflexivity.
Qed.

Lemma gain_never_set_witness :
  als_gain (priv (driver_run dev_probed
                    [CallWriteEventConfig 1; CallReadEventConfig;
                     CallIrq 17 1000;
                     CallWriteRaw end_of_channels 10 0 IIO_CHAN_INFO_INT_TIME])) = 0
  /\ apds9960_write_raw
       (priv (driver_run dev_probed
                [CallWriteEventConfig 1; CallReadEventConfig; CallIrq 17 1000;
                 CallWriteRaw end_of_channels 10 0 IIO_CHAN_INFO_INT_TIME]))
       end_of_channels 200 0 IIO_CHAN_INFO_INT_TIME
     = (- EINVAL,
        set_als_adc_int_us
          (priv (driver_run dev_probed
                   [CallWriteEventConfig 1; CallReadEventConfig; CallIrq 17 1000;
                    CallWriteRaw end_of_channels 10 0 IIO_CHAN_INFO_INT_TIME]))
          1000)
  /\ exists ops,
       bus_log (Regmap.bus (regmap (priv (driver_run dev_probed
                   [CallWriteEventConfig 1; CallReadEventConfig; CallIrq 17 1000;
                    CallWriteRaw end_of_channels 10 0 IIO_CHAN_INFO_INT_TIME]))))
       = bus_log (Regmap.bus (regmap (priv dev_probed))) ++ ops
       /\ Forall clear_op ops.
Proof.
  apply (gain_never_set env_ok bus_idle dev_probed).
  vm_compute. reflexivity.
Defined.

(** ** Attributes the callbacks do not implement *)

(** A request for an attribute a callback has no case for is rejected with
    -EINVAL and has no effect at all: [apds9960_write_raw] with a mask
    other than the integration time returns the private data as it was
    (the stored integration time included), and [apds9960_read_raw] with a
    mask other than the scale returns outputs and device as they were,
    without consulting the channel-info lookup. *)
Theorem unsupported_attribute_rejected
    (lookup : ext_info_lookup) indio_dev chan val val2 wmask rmask :
  wmask <> IIO_CHAN_INFO_INT_TIME ->
  rmask <> IIO_CHAN_INFO_SCALE ->
  apds9960_write_raw (priv indio_dev) chan val val2 wmask
  = (- EINVAL, priv indio_dev)
  /\ apds9960_read_raw lookup indio_dev chan val val2 rmask
     = (- EINVAL, val, val2, indio_dev).
Proof.
  intros Hw Hr. split.
  - destruct wmask; try reflexivity. contradiction.
  - destruct rmask; try reflexivity. contradiction.
Qed.

Lemma unsupported_attribute_rejected_witness :
  apds9960_write_raw (priv dev_probed) (als_chan IIO_MOD_LIGHT_CLEAR IDX_ALS_CLEAR)
    42 0 IIO_CHAN_INFO_SCALE
  = (- EINVAL, priv dev_probed)
  /\ apds9960_read_raw lookup_failing dev_probed
       (als_chan IIO_MOD_LIGHT_CLEAR IDX_ALS_CLEAR) 42 0 IIO_CHAN_INFO_INT_TIME
     = (- EINVAL, 42, 0, dev_probed).
Proof.
  apply (unsupported_attribute_rejected lookup_failing dev_probed
           (als_chan IIO_MOD_LIGHT_CLEAR IDX_ALS_CLEAR) 42 0
           IIO_CHAN_INFO_SCALE IIO_CHAN_INFO_INT_TIME); discriminate.
Defined.

(** ** The stored integration time as a function of the request *)

(** For a requested value in [0,255] and a supported gain, the value the
    integration-time write stores is [min (1000 * (256 - val) * gain)
    1000000] exactly: no intermediate wraps, the lower clamp never acts,
    and the upper clamp acts exactly when [(256 - val) * gain > 1000].
    This holds whether or not the register write then succeeds. *)
Theorem stored_int_time_formula data chan val val2 :
  0 <= val <= 255 ->
  gain_supported (als_gain data) ->
  als_adc_int_us
    (snd (apds9960_write_raw data chan val val2 IIO_CHAN_INFO_INT_TIME))
  = Z.min (1000 * (256 - val) * als_gain data) 1000000
  /\ (als_adc_int_us
        (snd (apds9960_write_raw data chan val val2 IIO_CHAN_INFO_INT_TIME))
      = 1000 * (256 - val) * als_gain data
      <-> (256 - val) * als_gain data <= 1000).
Proof.
  intros Hv Hg. rewrite write_raw_stores_clamped.
  rewrite int_time_stored_exact by assumption.
  apply gain_supported_range in Hg. split; [reflexivity | lia].
Qed.

Lemma stored_int_time_formula_witness :
  als_adc_int_us
    (snd (apds9960_write_raw (data_with_gain 4) end_of_channels 100 0
            IIO_CHAN_INFO_INT_TIME))
  = Z.min (1000 * (256 - 100) * als_gain (data_with_gain 4)) 1000000
  /\ (als_adc_int_us
        (snd (apds9960_write_raw (data_with_gain 4) end_of_channels 100 0
                IIO_CHAN_INFO_INT_TIME))
      = 1000 * (256 - 100) * als_gain (data_with_gain 4)
      <-> (256 - 100) * als_gain (data_with_gain 4) <= 1000).
Proof.
  apply (stored_int_time_formula (data_with_gain 4) end_of_channels 100 0).
  - lia.
  - unfold gain_supported. simpl. tauto.
Defined.

(** The stored integration time is monotone in the request: a larger
    requested value never stores a longer time, and a larger supported
    gain never stores a shorter one. *)
Theorem stored_int_time_monotone data data' chan val val' val2 :
  0 <= val <= val' -> val' <= 255 ->
  gain_supported (als_gain data) ->
  gain_supported (als_gain data') ->
  als_gain data <= als_gain data' ->
  als_adc_int_us
    (snd (apds9960_write_raw data chan val' val2 IIO_CHAN_INFO_INT_TIME))
  <= als_adc_int_us
       (snd (apds9960_write_raw data chan val val2 IIO_CHAN_INFO_INT_TIME))
  /\ als_adc_int_us
       (snd (apds9960_write_raw data chan val val2 IIO_CHAN_INFO_INT_TIME))
     <= als_adc_int_us
          (snd (apds9960_write_raw data' chan val val2 IIO_CHAN_INFO_INT_TIME)).
Proof.
  intros Hv Hv' Hg Hg' Hle. rewrite !write_raw_stores_clamped.
  rewrite !int_time_stored_exact by (assumption || lia).
  apply gain_supported_range in Hg, Hg'. split.
  - apply Z.min_le_compat_r. nia.
  - apply Z.min_le_compat_r. nia.
Qed.

Lemma stored_int_time_monotone_witness :
  als_adc_int_us
    (snd (apds9960_write_raw (data_with_gain 1) end_of_channels 250 0
            IIO_CHAN_INFO_INT_TIME))
  <= als_adc_int_us
       (snd (apds9960_write_raw (data_with_gain 1) end_of_channels 200 0
               IIO_CHAN_INFO_INT_TIME))
  /\ als_adc_int_us
       (snd (apds9960_write_raw (data_with_gain 1) end_of_channels 200 0
               IIO_CHAN_INFO_INT_TIME))
     <= als_adc_int_us
          (snd (apds9960_write_raw (data_with_gain 4) end_of_channels 200 0
                  IIO_CHAN_INFO_INT_TIME)).
Proof.
  apply (stored_int_time_monotone (data_with_gain 1) (data_with_gain 4)
           end_of_channels 200 250 0).
  - lia.
  - lia.
  - unfold gain_supported. simpl. tauto.
  - unfold gain_supported. simpl. tauto.
  - simpl. lia.
Defined.

(** ** Requests outside [0,255] and repeated requests *)

Lemma to_uint_to_int y : CInt.to_uint (CInt.to_int y) = y mod 2 ^ 32.
Proof.
  unfold CInt.to_uint, CInt.to_int, CInt.wrap_unsigned, CInt.wrap_signed.
  change (2 ^ (32 - 1)) with 2147483648.
  rewrite Zminus_mod_idemp_l. f_equal. lia.
Qed.

Lemma low_byte_of_uint y : (y mod 2 ^ 32) mod 256 = y mod 256.
Proof.
  apply Z.mod_mod_divide. exists (2 ^ 24). reflexivity.
Qed.

Lemma land_low_byte v : Z.land v 0xff = v mod 256.
Proof. change 0xff with (Z.ones 8). rewrite Z.land_ones by lia. reflexivity. Qed.

(** [regmap_update_bits] looks at its value through the mask only. *)
Lemma regmap_update_bits_masked map reg mask v v' :
  Z.land v mask = Z.land v' mask ->
  Regmap.regmap_update_bits map reg mask v
  = Regmap.regmap_update_bits map reg mask v'.
Proof. intros E. unfold Regmap.regmap_update_bits. rewrite E. reflexivity. Qed.

Lemma write_raw_reduced_byte data chan val val2 :
  gain_supported (als_gain data) ->
  apds9960_write_raw data chan val val2 IIO_CHAN_INFO_INT_TIME
  = let '(ret, m) :=
      Regmap.regmap_update_bits (regmap data) APDS9960_REG_ATIME 0xff
        ((255 - val) mod 256) in
    (ret, set_regmap
            (set_als_adc_int_us data (int_time_stored val (als_gain data))) m).
Proof.
  intros Hg. rewrite write_raw_supported by exact Hg.
  rewrite (regmap_update_bits_masked _ _ _ _ ((255 - val) mod 256));
    [reflexivity |].
  rewrite !land_low_byte, to_uint_to_int, low_byte_of_uint.
  symmetry. apply Z.mod_mod. lia.
Qed.

(** The integration-time write has no range check on the requested value:
    for any [val] and a supported gain, a successful call on a device whose
    register cache agrees with the chip commits the low byte of
    [255 - val], that is [(255 - val) mod 256], to ATIME (chip and cache).
    A request of 256 thus writes 0xff while storing the minimum
    integration time. *)
Theorem out_of_range_request_commits_low_byte data chan val val2 data' :
  gain_supported (als_gain data) ->
  driver_regmap (regmap data) ->
  cache_coherent (regmap data) ->
  apds9960_write_raw data chan val val2 IIO_CHAN_INFO_INT_TIME = (0, data') ->
  atime_committed (regmap data) (regmap data') ((255 - val) mod 256).
Proof.
  intros Hg Hcfg Hcoh Hcall.
  rewrite write_raw_reduced_byte in Hcall by exact Hg.
  destruct (Regmap.regmap_update_bits _ _ _ _) as [ret m] eqn:Hupd.
  injection Hcall as -> <-. cbn [regmap set_regmap].
  apply (regmap_update_bits_atime _ _ _ Hcfg Hcoh); [| exact Hupd].
  pose proof (Z.mod_pos_bound (255 - val) 256 ltac:(lia)). lia.
Qed.

Lemma out_of_range_request_commits_low_byte_witness :
  atime_committed (regmap (data_with_gain 4))
    (regmap (snd (apds9960_write_raw (data_with_gain 4) end_of_channels 300 0
                    IIO_CHAN_INFO_INT_TIME)))
    ((255 - 300) mod 256).
Proof.
  apply (out_of_range_request_commits_low_byte
           (data_with_gain 4) end_of_channels 300 0).
  - unfold gain_supported. simpl. tauto.
  - exact data_probed_driver_regmap.
  - exact data_probed_coherent.
  - vm_compute. reflexivity.
Defined.

(** Repeating a successful integration-time write is free: the second call
    with the same value finds the byte in the cache, issues no transfer,
    succeeds and leaves the device exactly as the first call left it. *)
Theorem repeated_write_is_silent data chan val val2 data' :
  gain_supported (als_gain data) ->
  driver_regmap (regmap data) ->
  cache_coherent (regmap data) ->
  apds9960_write_raw data chan val val2 IIO_CHAN_INFO_INT_TIME = (0, data') ->
  apds9960_write_raw data' chan val val2 IIO_CHAN_INFO_INT_TIME = (0, data').
Proof.
  intros Hg Hcfg Hcoh Hcall.
  pose proof Hcall as Hfirst.
  rewrite write_raw_reduced_byte in Hfirst by exact Hg.
  destruct (Regmap.regmap_update_bits _ _ _ _) as [ret m] eqn:Hupd.
  injection Hfirst as -> <-.
  assert (Hb : 0 <= (255 - val) mod 256 <= 255).
  { pose proof (Z.mod_pos_bound (255 - val) 256 ltac:(lia)). lia. }
  destruct (regmap_update_bits_atime _ _ _ Hcfg Hcoh Hb Hupd)
    as (Hhit & _ & Hcfg' & _).
  rewrite write_raw_reduced_byte by exact Hg.
  cbn [regmap set_regmap set_als_adc_int_us als_gain als_int als_adc_int_us].
  generalize (int_time_stored val (als_gain data)). intros us.
  unfold Regmap.regmap_update_bits.
  rewrite regmap_read_atime by exact Hcfg'. rewrite Hhit.
  cbn [negb Z.eqb]. rewrite update_bits_byte by exact Hb.
  rewrite Z.eqb_refl. destruct data. reflexivity.
Qed.

Lemma repeated_write_is_silent_witness :
  apds9960_write_raw
    (snd (apds9960_write_raw (data_with_gain 16) end_of_channels 10 0
            IIO_CHAN_INFO_INT_TIME))
    end_of_channels 10 0 IIO_CHAN_INFO_INT_TIME
  = (0, snd (apds9960_write_raw (data_with_gain 16) end_of_channels 10 0
               IIO_CHAN_INFO_INT_TIME)).
Proof.
  apply (repeated_write_is_silent (data_with_gain 16) end_of_channels 10 0).
  - unfold gain_supported. simpl. tauto.
  - exact data_probed_driver_regmap.
  - exact data_probed_coherent.
  - vm_compute. reflexivity.
Defined.

(** Whatever its outcome, and whatever the cache holds, the
    integration-time write only ever talks to ATIME: it issues at most one
    read of ATIME followed by at most one write to ATIME, and no transfer
    to any other register. *)
Theorem write_raw_touches_atime_only data chan val val2 :
  driver_regmap (regmap data) ->
  exists ops,
    bus_log (Regmap.bus (regmap
      (snd (apds9960_write_raw data chan val val2 IIO_CHAN_INFO_INT_TIME))))
    = bus_log (Regmap.bus (regmap data)) ++ ops
    /\ (length ops <= 2)%nat
    /\ Forall (fun op => op = BusRead APDS9960_REG_ATIME
                         \/ exists v, op = BusWrite APDS9960_REG_ATIME v) ops.
Proof.
  intros Hcfg.
  destruct (gain_supported_dec (als_gain data)) as [Hg | Hg].
  2: { rewrite write_raw_unsupported by exact Hg. exists [].
       cbn [snd regmap set_als_adc_int_us]. rewrite app_nil_r.
       repeat split; [simpl; lia | constructor]. }
  rewrite write_raw_supported by exact Hg.
  generalize (CInt.to_uint (CInt.to_int (255 - val))). intros v.
  generalize (set_als_adc_int_us data (int_time_stored val (als_gain data))).
  intros data1. unfold Regmap.regmap_update_bits.
  rewrite regmap_read_atime by exact Hcfg.
  generalize (CInt.uint_not 255). intros nmask.
  assert (Hwrite : forall map tmp, driver_regmap map ->
    exists v', bus_log (Regmap.bus (snd (Regmap.regmap_write map APDS9960_REG_ATIME tmp)))
               = bus_log (Regmap.bus map) ++ [BusWrite APDS9960_REG_ATIME v']).
  { intros map tmp Hm. rewrite regmap_write_atime by exact Hm.
    destruct (bus_write _ _ _) as [r b'] eqn:Hw.
    apply bus_write_spec in Hw as (Hlog & _). eexists. exact Hlog. }
  destruct (Regmap.cache (regmap data) !! APDS9960_REG_ATIME) as [orig |].
  - cbn [negb Z.eqb].
    destruct (Z.lor (Z.land orig nmask) (Z.land v 255) =? orig).
    + exists []. cbn [snd regmap set_regmap]. rewrite app_nil_r.
      repeat split; [simpl; lia | constructor].
    + destruct (Hwrite (regmap data)
                  (Z.lor (Z.land orig nmask) (Z.land v 255)) Hcfg) as [v' Hlog].
      destruct (Regmap.regmap_write _ _ _) as [r m].
      cbn [snd regmap set_regmap] in *. eexists. split; [exact Hlog |].
      split; [simpl; lia |].
      constructor; [right; eexists; reflexivity | constructor].
  - destruct (bus_read _ _) as [[ret v0] b] eqn:Hr.
    apply bus_read_spec in Hr as (_ & Hlog0 & _ & _).
    cbv beta iota zeta.
    destruct (ret =? 0) eqn:Eret; cbv beta iota zeta; rewrite ?Eret;
      cbn [negb Z.eqb].
    + destruct (Z.lor (Z.land v0 nmask) (Z.land v 255) =? v0).
      * exists [BusRead APDS9960_REG_ATIME].
        cbn [snd regmap set_regmap Regmap.bus].
        split; [exact Hlog0 |]. split; [simpl; lia |].
        constructor; [left; reflexivity | constructor].
      * destruct (Hwrite
                    (Regmap.mk (Regmap.config (regmap data))
                       (<[APDS9960_REG_ATIME := v0]> (Regmap.cache (regmap data))) b)
                    (Z.lor (Z.land v0 nmask) (Z.land v 255)) Hcfg) as [v' Hlog].
        destruct (Regmap.regmap_write _ _ _) as [r m].
        cbn [snd regmap set_regmap Regmap.bus] in *.
        exists [BusRead APDS9960_REG_ATIME; BusWrite APDS9960_REG_ATIME v'].
        rewrite Hlog, Hlog0, <- app_assoc.
        split; [reflexivity |]. split; [simpl; lia |].
        constructor; [left; reflexivity |].
        constructor; [right; eexists; reflexivity | constructor].
    + exists [BusRead APDS9960_REG_ATIME].
      cbn [snd regmap set_regmap Regmap.bus Regmap.with_bus].
      split; [exact Hlog0 |]. split; [simpl; lia |].
      constructor; [left; reflexivity | constructor].
Qed.

Lemma write_raw_touches_atime_only_witness :
  exists ops,
    bus_log (Regmap.bus (regmap
      (snd (apds9960_write_raw (with_faults (data_with_gain 1) [- EIO])
              end_of_channels 100 0 IIO_CHAN_INFO_INT_TIME))))
    = bus_log (Regmap.bus (regmap (with_faults (data_with_gain 1) [- EIO])))
      ++ ops
    /\ (length ops <= 2)%nat
    /\ Forall (fun op => op = BusRead APDS9960_REG_ATIME
                         \/ exists v, op = BusWrite APDS9960_REG_ATIME v) ops.
Proof.
  apply (write_raw_touches_atime_only (with_faults (data_with_gain 1) [- EIO])
           end_of_channels 100 0).
  reflexivity.
Defined.

(** ** The event path end to end *)

Lemma low_byte_of_state state :
  CInt.to_u8 (CInt.to_uint state) = state mod 256.
Proof.
  unfold CInt.to_u8, CInt.to_uint, CInt.wrap_unsigned.
  apply low_byte_of_uint.
Qed.

Lemma write_event_config_unfold data state :
  driver_regmap (regmap data) ->
  apds9960_als_write_event_config data state
  = let '(ret, b) :=
      bus_write (Regmap.bus (regmap data))
        (APDS9960_REG_ALS_CHANNEL IDX_ALS_CLEAR) (CInt.to_uint state) in
    (ret, set_regmap data (Regmap.with_bus (regmap data) b)).
Proof.
  intros Hcfg. unfold apds9960_als_write_event_config.
  rewrite regmap_write_clear by exact Hcfg.
  destruct (bus_write _ _ _). reflexivity.
Qed.

Lemma read_event_config_unfold data :
  driver_regmap (regmap data) ->
  apds9960_als_read_event_config data
  = let '(ret, v, b) :=
      bus_read (Regmap.bus (regmap data))
        (APDS9960_REG_ALS_CHANNEL IDX_ALS_CLEAR) in
    (ret,
     set_als_int (set_regmap data (Regmap.with_bus (regmap data) b))
       (CInt.to_int (if ret =? 0 then v else CInt.to_uint (als_int data)))).
Proof.
  intros Hcfg. unfold apds9960_als_read_event_config.
  rewrite regmap_read_clear by exact Hcfg.
  destruct (bus_read _ _) as [[ret v] b].
  destruct (Z.eqb_spec ret 0) as [-> | Hne]; reflexivity.
Qed.

(** Writing the event configuration puts exactly one transfer on the bus,
    a write of the low byte of [state] to the clear-channel register, and
    touches nothing else: the cache and the cached fields are as before.
    When it succeeds the chip holds that byte; when it fails the chip is
    unchanged and the transport's error is returned. *)
Theorem write_event_config_effect data state :
  driver_regmap (regmap data) ->
  let res := apds9960_als_write_event_config data state in
  let clear := APDS9960_REG_ALS_CHANNEL IDX_ALS_CLEAR in
  bus_log (Regmap.bus (regmap (snd res)))
  = bus_log (Regmap.bus (regmap data)) ++ [BusWrite clear (state mod 256)]
  /\ Regmap.cache (regmap (snd res)) = Regmap.cache (regmap data)
  /\ als_int (snd res) = als_int data
  /\ als_gain (snd res) = als_gain data
  /\ als_adc_int_us (snd res) = als_adc_int_us data
  /\ (fst res = 0 ->
      chip_byte (Regmap.bus (regmap (snd res))) clear = state mod 256)
  /\ (fst res <> 0 ->
      chip (Regmap.bus (regmap (snd res))) = chip (Regmap.bus (regmap data))).
Proof.
  intros Hcfg res clear. subst res clear.
  rewrite write_event_config_unfold by exact Hcfg.
  destruct (bus_write _ _ _) as [ret b] eqn:Hw.
  apply bus_write_spec in Hw as (Hlog & _ & Hok & Hko).
  rewrite low_byte_of_state in Hlog, Hok.
  cbn [fst snd regmap set_regmap als_int als_gain als_adc_int_us
       Regmap.bus Regmap.cache Regmap.with_bus].
  repeat split; try assumption.
  intros Hret. unfold chip_byte. rewrite (Hok Hret), lookup_insert_eq.
  cbn [default from_option id]. unfold id. apply CInt.to_u8_id.
  pose proof (Z.mod_pos_bound state 256 ltac:(lia)). lia.
Qed.

Lemma write_event_config_effect_witness :
  bus_log (Regmap.bus (regmap (snd (apds9960_als_write_event_config data_probed 257))))
  = bus_log (Regmap.bus (regmap data_probed))
    ++ [BusWrite (APDS9960_REG_ALS_CHANNEL IDX_ALS_CLEAR) (257 mod 256)]
  /\ Regmap.cache (regmap (snd (apds9960_als_write_event_config data_probed 257)))
     = Regmap.cache (regmap data_probed)
  /\ als_int (snd (apds9960_als_write_event_config data_probed 257))
     = als_int data_probed
  /\ als_gain (snd (apds9960_als_write_event_config data_probed 257))
     = als_gain data_probed
  /\ als_adc_int_us (snd (apds9960_als_write_event_config data_probed 257))
     = als_adc_int_us data_probed
  /\ (fst (apds9960_als_write_event_config data_probed 257) = 0 ->
      chip_byte (Regmap.bus (regmap
        (snd (apds9960_als_write_event_config data_probed 257))))
        (APDS9960_REG_ALS_CHANNEL IDX_ALS_CLEAR) = 257 mod 256)
  /\ (fst (apds9960_als_write_event_config data_probed 257) <> 0 ->
      chip (Regmap.bus (regmap
        (snd (apds9960_als_write_event_config data_probed 257))))
      = chip (Regmap.bus (regmap data_probed))).
Proof.
  apply (write_event_config_effect data_probed 257).
  exact data_probed_driver_regmap.
Defined.

(** An [int] survives the passage through an [unsigned int] location. *)
Lemma to_uint_to_int_range x :
  - 2147483648 <= x < 2147483648 -> CInt.to_int (CInt.to_uint x) = x.
Proof.
  intros Hx. unfold CInt.to_int, CInt.to_uint, CInt.wrap_signed, CInt.wrap_unsigned.
  change (2 ^ (32 - 1)) with 2147483648. change (2 ^ 32) with 4294967296.
  rewrite Zplus_mod_idemp_l.
  rewrite Z.mod_small by lia. lia.
Qed.

(** A query that hits a transport fault returns the fault's code and
    keeps the cached value: [als_int] is as before, as is the cache; the
    failed read is the one transfer issued. *)
Theorem event_query_failure_keeps_cached_value data e rest :
  driver_regmap (regmap data) ->
  - 2147483648 <= als_int data < 2147483648 ->
  faults (Regmap.bus (regmap data)) = e :: rest ->
  e <> 0 ->
  fst (apds9960_als_read_event_config data) = e
  /\ als_int (snd (apds9960_als_read_event_config data)) = als_int data
  /\ Regmap.cache (regmap (snd (apds9960_als_read_event_config data)))
     = Regmap.cache (regmap data)
  /\ bus_log (Regmap.bus (regmap (snd (apds9960_als_read_event_config data))))
     = bus_log (Regmap.bus (regmap data))
       ++ [BusRead (APDS9960_REG_ALS_CHANNEL IDX_ALS_CLEAR)].
Proof.
  intros Hcfg Hint Hf He.
  rewrite read_event_config_unfold by exact Hcfg.
  unfold bus_read. rewrite Hf.
  rewrite (proj2 (Z.eqb_neq e 0) He).
  cbn [fst snd regmap set_regmap set_als_int als_int Regmap.bus Regmap.cache
       Regmap.with_bus bus_log].
  rewrite ?(proj2 (Z.eqb_neq e 0) He).
  repeat split.
  apply to_uint_to_int_range, Hint.
Qed.

Lemma event_query_failure_keeps_cached_value_witness :
  fst (apds9960_als_read_event_config
         (with_faults (set_als_int data_probed 1) [- EIO])) = - EIO
  /\ als_int (snd (apds9960_als_read_event_config
                     (with_faults (set_als_int data_probed 1) [- EIO])))
     = als_int (with_faults (set_als_int data_probed 1) [- EIO])
  /\ Regmap.cache (regmap (snd (apds9960_als_read_event_config
                                  (with_faults (set_als_int data_probed 1) [- EIO]))))
     = Regmap.cache (regmap (with_faults (set_als_int data_probed 1) [- EIO]))
  /\ bus_log (Regmap.bus (regmap (snd (apds9960_als_read_event_config
                                  (with_faults (set_als_int data_probed 1) [- EIO])))))
     = bus_log (Regmap.bus (regmap (with_faults (set_als_int data_probed 1) [- EIO])))
       ++ [BusRead (APDS9960_REG_ALS_CHANNEL IDX_ALS_CLEAR)].
Proof.
  apply (event_query_failure_keeps_cached_value
           (with_faults (set_als_int data_probed 1) [- EIO]) (- EIO) []).
  - reflexivity.
  - simpl. lia.
  - reflexivity.
  - discriminate.
Defined.

(** The identifier carried by interrupt events follows queries, not
    writes.  After a successful write of an enable byte, an interrupt
    still carries the value cached before the write; once a query has
    read the register back, interrupts carry the byte that was written. *)
Theorem event_id_follows_query data state data1 evs irq now :
  driver_regmap (regmap data) ->
  0 <= state <= 255 ->
  apds9960_als_write_event_config data state = (0, data1) ->
  next_transfer_ok (Regmap.bus (regmap data1)) ->
  events (snd (apds9960_als_irq_handler irq (mk_dev data1 evs) now))
  = evs ++ [mk_event (CInt.to_u64 (als_int data)) (CInt.to_s64 now)]
  /\ events (snd (apds9960_als_irq_handler irq
                    (mk_dev (snd (apds9960_als_read_event_config data1)) evs)
                    now))
     = evs ++ [mk_event state (CInt.to_s64 now)].
Proof.
  intros Hcfg Hs Hw Hok.
  rewrite write_event_config_unfold in Hw by exact Hcfg.
  destruct (bus_write _ _ _) as [ret b] eqn:Hbw.
  injection Hw as -> <-.
  apply bus_write_spec in Hbw as (_ & _ & Hchip & _).
  specialize (Hchip eq_refl). rewrite low_byte_of_state in Hchip.
  rewrite Z.mod_small in Hchip by lia.
  cbn [regmap set_regmap Regmap.bus Regmap.with_bus] in Hok.
  rewrite !irq_handler_step. cbn [snd events priv].
  split; [reflexivity |].
  rewrite read_event_config_unfold by exact Hcfg.
  cbn [regmap set_regmap Regmap.bus Regmap.with_bus].
  rewrite bus_read_ok by exact Hok.
  cbn [snd Z.eqb]. unfold als_event. cbn [als_int set_als_int].
  unfold chip_byte. rewrite Hchip, lookup_insert_eq.
  change (default 0 (Some state)) with state.
  rewrite CInt.to_u8_id, CInt.to_int_id, CInt.to_u64_id by lia.
  reflexivity.
Qed.

Lemma event_id_follows_query_witness :
  events (snd (apds9960_als_irq_handler 17
                 (mk_dev (snd (apds9960_als_write_event_config data_probed 1)) [])
                 1000))
  = [] ++ [mk_event (CInt.to_u64 (als_int data_probed)) (CInt.to_s64 1000)]
  /\ events (snd (apds9960_als_irq_handler 17
                    (mk_dev (snd (apds9960_als_read_event_config
                                    (snd (apds9960_als_write_event_config
                                            data_probed 1)))) [])
                    1000))
     = [] ++ [mk_event 1 (CInt.to_s64 1000)].
Proof.
  apply (event_id_follows_query data_probed 1).
  - exact data_probed_driver_regmap.
  - lia.
  - vm_compute. reflexivity.
  - left. vm_compute. reflexivity.
Defined.

(** ** The register policy as a whole *)

(** The access policy of [apds9960_regmap_config], register by register:
    readable are 0x81..0x9a, writeable everything up to 0x9a, volatile
    0x94..0x96; no register is both volatile and precious, and ATIME is
    neither, so it is served from the cache. *)
Theorem register_policy reg :
  (Regmap.regmap_readable apds9960_regmap_config reg = true
   <-> 0x81 <= reg <= 0x9a)
  /\ (Regmap.regmap_writeable apds9960_regmap_config reg = true
      <-> reg <= 0x9a)
  /\ (Regmap.regmap_volatile apds9960_regmap_config reg = true
      <-> 0x94 <= reg <= 0x96)
  /\ ~ (Regmap.regmap_volatile apds9960_regmap_config reg = true
        /\ Regmap.regmap_precious apds9960_regmap_config reg = true)
  /\ Regmap.regmap_volatile apds9960_regmap_config APDS9960_REG_ATIME = false
  /\ Regmap.regmap_precious apds9960_regmap_config APDS9960_REG_ATIME = false.
Proof.
  unfold Regmap.regmap_precious, Regmap.regmap_volatile, Regmap.regmap_writeable,
    Regmap.regmap_readable, Regmap.regmap_check_range_table,
    Regmap.regmap_reg_in_ranges, Regmap.regmap_reg_in_range.
  cbn -[Z.leb Z.ltb].
  change (APDS9960_REG_ALS_BASE + 6) with 154.
  change (APDS9960_REG_ALS_BASE + 4) with 152.
  change (APDS9960_REG_ALS_BASE + 2) with 150.
  change APDS9960_REG_ALS_BASE with 148.
  change APDS9960_REG_ATIME with 129.
  split; [| split; [| split; [| split; [| split; reflexivity]]]];
    destruct (Z.ltb_spec 154 reg), (Z.leb_spec 129 reg), (Z.leb_spec reg 154),
      (Z.leb_spec 152 reg), (Z.leb_spec 148 reg), (Z.leb_spec reg 150);
    cbn; try lia;
    try (split; intros; try discriminate; try lia; reflexivity);
    try (intros [? ?]; discriminate).
Qed.
